(** * FarmBuddy backend (server.js): a shallow embedding and its properties

    The server keeps three process-wide arrays ([users], [products],
    [orders]) and answers each HTTP request with one synchronous handler.
    Node runs a synchronous handler to completion before it starts the next
    one, so the concurrent behaviour of the server is the set of sequences
    of handler runs: a handler is a function from the store to a new store
    and a response ([handle]), and a behaviour is a list of runs ([run]).

    Requests.  A request is the route together with what its handler reads:
    the [Authorization] header and the fields of the parsed JSON body, an
    absent field being [undefined].  Requests that reach no handler of
    server.js (a CORS preflight, an unknown route, a body that does not
    parse) leave the store alone and are not modelled.

    Numbers.  The handlers are embedded twice.  The first embedding models
    a JavaScript number by an exact rational ([Q]), compared with [Qeq];
    it serves the properties that do not depend on what the arithmetic
    gives: who may do what, the shape of the store, the order of the
    checks.  The second embedding ([Module Binary64]) has a number as the
    IEEE 754 binary64 value it is, with the processor's addition,
    subtraction, division and comparisons; it serves the properties about
    the sums and the availability the handlers compute.  How a number
    prints ([Number::toString]) is a parameter of the handlers.

    Randomness and time.  [crypto.randomBytes] and [new Date()] are inputs
    of a handler run: each request comes with an [env] that holds what the
    run draws.  Nothing in server.js compares a drawn identifier with the
    identifiers in use; where a property needs a draw to be new, the
    statement says so.

    Persistence.  [saveData] rewrites a file from the array just changed and
    no handler reads the files back; the files are not part of the model.

    Layout: values, records, handlers ([Section Server]); the vocabulary of
    the specification; scenarios; the same for binary64 ([Module
    Binary64]); the properties ([Section Properties]) and the scenarios
    evaluated; the properties in binary64 ([Section Binary64Properties]). *)

From Stdlib Require Import List String Ascii Bool NArith ZArith QArith Lia Lqa.
From Stdlib Require Import Floats.
From Stdlib Require Import DecimalString.
From stdpp Require Import gmap strings.
Import ListNotations.

Local Open Scope string_scope.
Local Open Scope Q_scope.

(** ** Values of a parsed JSON body *)

(** What a handler reads out of [req.body].  [JUndefined] is an absent
    field.  [JObj k] is an array or an object: the handlers only observe
    that it is truthy, that it is not a number, that it is identical to no
    stored value (it was allocated by the parse of this request), and the
    string [k] it converts to when it is used as a property key. *)
Inductive jsval : Type :=
| JUndefined
| JNull
| JBool (b : bool)
| JNum (x : Q)
| JStr (s : string)
| JObj (k : string).

(** [!!v] of JavaScript. *)
Definition truthy (v : jsval) : bool :=
  match v with
  | JUndefined | JNull => false
  | JBool b => b
  | JNum x => negb (Qeq_bool x 0)
  | JStr s => negb (String.eqb s "")
  | JObj _ => true
  end.

(** [a === b], for a stored value and a value of the request. *)
Definition strict_eq (a b : jsval) : bool :=
  match a, b with
  | JUndefined, JUndefined => true
  | JNull, JNull => true
  | JBool x, JBool y => Bool.eqb x y
  | JNum x, JNum y => Qeq_bool x y
  | JStr x, JStr y => String.eqb x y
  | _, _ => false
  end.

(** [a || b] of JavaScript. *)
Definition js_or (a b : jsval) : jsval := if truthy a then a else b.

(** ** The stored records *)

Module User.
(** [{id, name, type, token}] *)
Record t : Type := mk { id : string; name : jsval; type : jsval; token : string }.
End User.

Module Product.
(** [{id, farmerId, name, desc, price, quantity}] *)
Record t : Type := mk
  { id : string; farmerId : string; name : jsval; desc : jsval;
    price : Q; quantity : Q }.
End Product.

Module Order.
(** [{id, productId, buyerId, qty, date}] *)
Record t : Type := mk
  { id : string; productId : jsval; buyerId : string; qty : Q; date : string }.
End Order.

(** The three arrays. *)
Record state : Type := mkState
  { users : list User.t; products : list Product.t; orders : list Order.t }.

(** The store of a server started on an empty data directory. *)
Definition init : state := mkState [] [] [].

(** ** Randomness and time *)

Record env : Type := mkEnv
  { random8 : N;      (* crypto.randomBytes(8), as a number  *)
    random16 : N;     (* crypto.randomBytes(16), as a number *)
    now : string }.   (* new Date().toISOString()            *)

Definition hex_digit (n : N) : ascii :=
  match String.get (N.to_nat n) "0123456789abcdef" with
  | Some c => c
  | None => "0"%char
  end.

(** [digits] hexadecimal digits of [n], most significant first. *)
Fixpoint to_hex (digits : nat) (n : N) : string :=
  match digits with
  | O => ""
  | S d => to_hex d (n / 16) ++ String (hex_digit (n mod 16)) ""
  end.

Definition genId (e : env) : string := to_hex 16 (random8 e).
Definition genToken (e : env) : string := to_hex 32 (random16 e).

(** The proofs never look inside an identifier or a token. *)
Global Opaque genId genToken.

(** ** Requests and responses *)

Inductive request : Type :=
| PostRegister (name type : jsval)
| PostLogin (name type : jsval)
| GetProducts
| GetProduct (id : string)
| PostProducts (authorization : option string) (name desc price quantity : jsval)
| PostOrders (authorization : option string) (productId qty : jsval)
| GetOrders (authorization : option string)
| GetMarketTrends
| GetRoot.

(** An element of the answer of [GET /products]. *)
Record product_view : Type := mkView
  { v_id : string; v_farmerId : string; v_farmerName : jsval; v_name : jsval;
    v_desc : jsval; v_price : Q; v_quantityAvailable : Q }.

(** An entry of [trendData].  [avgPrice] is absent until the second loop
    of the handler. *)
Record trend : Type := mkTrend
  { totalPrice : Q; count : Q; totalSalesQty : Q; avgPrice : option Q }.

Inductive payload : Type :=
| Error (error : string)
| UserJson (id : string) (name type : jsval) (token : string)
| ProductsJson (l : list product_view)
| ProductJson (p : Product.t) (farmerName : jsval) (quantityAvailable : Q)
| NewProductJson (p : Product.t)
| NewOrderJson (o : Order.t)
| BuyerOrdersJson (l : list (Order.t * jsval * option string))
| FarmerOrdersJson (l : list (Order.t * jsval * jsval))
| TrendsJson (t : gmap string trend)
| Text (s : string).

Record response : Type := mkResponse { status : nat; body : payload }.

Definition json (p : payload) : response := mkResponse 200 p.
Definition fail (code : nat) (msg : string) : response := mkResponse code (Error msg).

(** ** The handlers *)

Section Server.

(** [Number::toString] of the JavaScript runtime: how a number reads when a
    template literal interpolates it or when it is used as a property key. *)
Variable NumberToString : Q -> string.

(** The property key a value converts to in [trendData[p.name]]. *)
Definition ToPropertyKey (v : jsval) : string :=
  match v with
  | JUndefined => "undefined"
  | JNull => "null"
  | JBool true => "true"
  | JBool false => "false"
  | JNum x => NumberToString x
  | JStr s => s
  | JObj k => k
  end.

(** [authMiddleware]: the user the bearer token belongs to, or the 401 the
    middleware answers with. *)
Definition authMiddleware (s : state) (authorization : option string)
  : response + User.t :=
  match authorization with
  | None => inl (fail 401 "No token provided")
  | Some authHeader =>
      if negb (String.prefix "Bearer " authHeader)
      then inl (fail 401 "No token provided")
      else
        let token := String.substring 7 (String.length authHeader - 7) authHeader in
        match List.find (fun u => String.eqb (User.token u) token) (users s) with
        | None => inl (fail 401 "Invalid token")
        | Some user => inr user
        end
  end.

(** A route declared with [authMiddleware] in front of its handler. *)
Definition protected (s : state) (authorization : option string)
    (next : User.t -> state * response) : state * response :=
  match authMiddleware s authorization with
  | inl r => (s, r)
  | inr user => next user
  end.

(** The test both [/register] and [/login] start with. *)
Definition invalid_credentials (name type : jsval) : bool :=
  negb (truthy name) || negb (truthy type)
  || (negb (strict_eq type (JStr "farmer")) && negb (strict_eq type (JStr "buyer"))).

Definition same_name_type (name type : jsval) (u : User.t) : bool :=
  strict_eq (User.name u) name && strict_eq (User.type u) type.

(** [POST /register] *)
Definition register (s : state) (e : env) (name type : jsval) : state * response :=
  if invalid_credentials name type
  then (s, fail 400 "Invalid registration data")
  else
    match List.find (same_name_type name type) (users s) with
    | Some _ => (s, fail 400 "User already exists with this name and type")
    | None =>
        let id := genId e in
        let token := genToken e in
        let newUser := User.mk id name type token in
        (mkState (users s ++ [newUser]) (products s) (orders s),
         json (UserJson id name type token))
    end.

(** [user.token = t] for the object [users.find(f)] returned: the first
    element of the array that satisfies [f] is the one that changes. *)
Fixpoint set_token_of_first (f : User.t -> bool) (t : string) (l : list User.t)
  : list User.t :=
  match l with
  | [] => []
  | u :: rest =>
      if f u
      then User.mk (User.id u) (User.name u) (User.type u) t :: rest
      else u :: set_token_of_first f t rest
  end.

(** [POST /login] *)
Definition login (s : state) (e : env) (name type : jsval) : state * response :=
  if invalid_credentials name type
  then (s, fail 400 "Invalid login data")
  else
    match List.find (same_name_type name type) (users s) with
    | None => (s, fail 400 "User not found, please register")
    | Some user =>
        let token := genToken e in
        (mkState (set_token_of_first (same_name_type name type) token (users s))
                 (products s) (orders s),
         json (UserJson (User.id user) (User.name user) (User.type user) token))
    end.

(** [orders.filter(o => o.productId === pid).reduce((acc,o) => acc + o.qty, 0)] *)
Definition soldQty (os : list Order.t) (pid : jsval) : Q :=
  fold_left (fun acc o => acc + Order.qty o)
            (List.filter (fun o => strict_eq (Order.productId o) pid) os) 0.

(** [u ? u.name : 'Unknown'] for [u = users.find(u => u.id === id)]. *)
Definition nameOf (us : list User.t) (id : string) : jsval :=
  match List.find (fun u => String.eqb (User.id u) id) us with
  | Some u => User.name u
  | None => JStr "Unknown"
  end.

(** [GET /products] *)
Definition getProducts (s : state) : response :=
  let prodsWithAvail :=
    List.filter (fun v => negb (Qle_bool (v_quantityAvailable v) 0))
      (List.map (fun p =>
         let soldQty := soldQty (orders s) (JStr (Product.id p)) in
         mkView (Product.id p) (Product.farmerId p)
                (nameOf (users s) (Product.farmerId p))
                (Product.name p) (Product.desc p) (Product.price p)
                (Product.quantity p - soldQty))
        (products s)) in
  json (ProductsJson prodsWithAvail).

Definition findProduct (ps : list Product.t) (id : jsval) : option Product.t :=
  List.find (fun p => strict_eq (JStr (Product.id p)) id) ps.

(** [GET /products/:id] *)
Definition getProduct (s : state) (id : string) : response :=
  match findProduct (products s) (JStr id) with
  | None => fail 404 "Product not found"
  | Some product =>
      let soldQty := soldQty (orders s) (JStr (Product.id product)) in
      let availability := Product.quantity product - soldQty in
      json (ProductJson product (nameOf (users s) (Product.farmerId product)) availability)
  end.

(** [typeof v !== 'number' || v <= 0], with the number when the test fails. *)
Definition positive_number (v : jsval) : option Q :=
  match v with
  | JNum x => if Qle_bool x 0 then None else Some x
  | _ => None
  end.

(** The handler of [POST /products], after the middleware. *)
Definition addProduct (s : state) (e : env) (name desc price quantity : jsval)
    (user : User.t) : state * response :=
  if negb (strict_eq (User.type user) (JStr "farmer"))
  then (s, fail 403 "Only farmers can add products")
  else
    match truthy name, positive_number price, positive_number quantity with
    | true, Some price, Some quantity =>
        let newProd :=
          Product.mk (genId e) (User.id user) name (js_or desc (JStr "")) price quantity in
        (mkState (users s) (products s ++ [newProd]) (orders s),
         json (NewProductJson newProd))
    | _, _, _ => (s, fail 400 "Invalid product data")
    end.

(** The handler of [POST /orders], after the middleware. *)
Definition placeOrder (s : state) (e : env) (productId qty : jsval)
    (user : User.t) : state * response :=
  if negb (strict_eq (User.type user) (JStr "buyer"))
  then (s, fail 403 "Only buyers can place orders")
  else
    match truthy productId, positive_number qty with
    | true, Some qty =>
        match findProduct (products s) productId with
        | None => (s, fail 404 "Product not found")
        | Some product =>
            let soldQty := soldQty (orders s) productId in
            let available := Product.quantity product - soldQty in
            if negb (Qle_bool qty available)
            then (s, fail 400 ("Quantity requested (" ++ NumberToString qty
                               ++ ") exceeds available quantity ("
                               ++ NumberToString available ++ ")"))
            else
              let newOrder := Order.mk (genId e) productId (User.id user) qty (now e) in
              (mkState (users s) (products s) (orders s ++ [newOrder]),
               json (NewOrderJson newOrder))
        end
    | _, _ => (s, fail 400 "Invalid order data")
    end.

(** The handler of [GET /orders], after the middleware. *)
Definition listOrders (s : state) (user : User.t) : state * response :=
  if strict_eq (User.type user) (JStr "buyer")
  then
    let userOrders :=
      List.map (fun o =>
          let product := findProduct (products s) (Order.productId o) in
          (o,
           match product with Some p => Product.name p | None => JStr "Unknown" end,
           match product with Some p => Some (Product.farmerId p) | None => None end))
        (List.filter (fun o => String.eqb (Order.buyerId o) (User.id user)) (orders s)) in
    (s, json (BuyerOrdersJson userOrders))
  else if strict_eq (User.type user) (JStr "farmer")
  then
    let farmerProds :=
      List.map Product.id
        (List.filter (fun p => String.eqb (Product.farmerId p) (User.id user)) (products s)) in
    let farmerOrders :=
      List.map (fun o =>
          let product := findProduct (products s) (Order.productId o) in
          (o,
           nameOf (users s) (Order.buyerId o),
           match product with Some p => Product.name p | None => JStr "Unknown" end))
        (List.filter (fun o =>
             existsb (fun id => strict_eq (JStr id) (Order.productId o)) farmerProds)
           (orders s)) in
    (s, json (FarmerOrdersJson farmerOrders))
  else (s, fail 400 "Unknown user type").

(** *** Market trends *)

(** The property names every object literal inherits from
    [Object.prototype]; each of them reads as a function or an object,
    hence truthy, on the fresh [trendData = {}]. *)
Definition inherited_keys : list string :=
  [ "constructor"; "__proto__"; "hasOwnProperty"; "isPrototypeOf";
    "propertyIsEnumerable"; "toLocaleString"; "toString"; "valueOf";
    "__defineGetter__"; "__defineSetter__"; "__lookupGetter__";
    "__lookupSetter__" ].

Definition inherited (key : string) : bool :=
  existsb (String.eqb key) inherited_keys.

(** The first loop, for one product.  When [trendData[p.name]] is an
    inherited property the two updates are made to the object it holds,
    which is not [trendData]: no own property appears. *)
Definition addPrice (trendData : gmap string trend) (p : Product.t)
  : gmap string trend :=
  let key := ToPropertyKey (Product.name p) in
  match trendData !! key with
  | Some t =>
      <[ key := mkTrend (totalPrice t + Product.price p) (count t + 1)
                        (totalSalesQty t) (avgPrice t) ]> trendData
  | None =>
      if inherited key then trendData
      else <[ key := mkTrend (0 + Product.price p) (0 + 1) 0 None ]> trendData
  end.

(** The second loop ([for (let key in trendData)]), for one entry. *)
Definition setAverage (t : trend) : trend :=
  mkTrend (totalPrice t) (count t) 0 (Some (totalPrice t / count t)).

(** The third loop, for one order. *)
Definition addSales (ps : list Product.t) (trendData : gmap string trend)
    (order : Order.t) : gmap string trend :=
  match findProduct ps (Order.productId order) with
  | None => trendData
  | Some product =>
      let key := ToPropertyKey (Product.name product) in
      match trendData !! key with
      | Some t =>
          <[ key := mkTrend (totalPrice t) (count t)
                            (totalSalesQty t + Order.qty order) (avgPrice t) ]> trendData
      | None => trendData
      end
  end.

(** [GET /market-trends] *)
Definition marketTrends (s : state) : gmap string trend :=
  let trendData := fold_left addPrice (products s) (∅ : gmap string trend) in
  let trendData := setAverage <$> trendData in
  fold_left (addSales (products s)) (orders s) trendData.

(** *** The server *)

(** One handler run. *)
Definition handle (s : state) (r : request) (e : env) : state * response :=
  match r with
  | PostRegister name type => register s e name type
  | PostLogin name type => login s e name type
  | GetProducts => (s, getProducts s)
  | GetProduct id => (s, getProduct s id)
  | PostProducts authorization name desc price quantity =>
      protected s authorization (addProduct s e name desc price quantity)
  | PostOrders authorization productId qty =>
      protected s authorization (placeOrder s e productId qty)
  | GetOrders authorization => protected s authorization (listOrders s)
  | GetMarketTrends => (s, json (TrendsJson (marketTrends s)))
  | GetRoot => (s, mkResponse 200 (Text "Agriculture Project Backend API is running."))
  end.

(** A sequence of handler runs: the final store and the responses, in
    order. *)
Fixpoint run (s : state) (l : list (request * env)) : state * list response :=
  match l with
  | [] => (s, [])
  | (r, e) :: rest =>
      let '(s1, a) := handle s r e in
      let '(s2, answers) := run s1 rest in
      (s2, a :: answers)
  end.

End Server.

(** ** The specification's vocabulary *)

(** [order] is an order against the listing [listingId]. *)
Definition references (listingId : string) (order : Order.t) : bool :=
  strict_eq (Order.productId order) (JStr listingId).

(** The sum of [qty] over the orders of a ledger that reference a listing:
    the specification's [Σ(order.quantity for orders where order.listingId
    == listingId)]. *)
Fixpoint committed (ledger : list Order.t) (listingId : string) : Q :=
  match ledger with
  | [] => 0
  | o :: rest =>
      if references listingId o
      then Order.qty o + committed rest listingId
      else committed rest listingId
  end.

(** The specification's [remaining]: total quantity minus committed
    orders. *)
Definition remaining (s : state) (listing : Product.t) : Q :=
  Product.quantity listing - committed (orders s) (Product.id listing).

(** A quantity the specification accepts: a positive integer. *)
Definition positive_integer (v : jsval) : Prop :=
  exists (x : Q) (z : Z), v = JNum x /\ x == inject_Z z /\ (0 < z)%Z.

(** What the handlers test instead: a number greater than zero. *)
Definition positive (v : jsval) : Prop :=
  exists x : Q, v = JNum x /\ 0 < x.

(** The header a client sends to present the session token [t]. *)
Definition bearer (t : string) : option string := Some ("Bearer " ++ t).

(** The actors whose current session token is [t]. *)
Definition holders (s : state) (t : string) : list User.t :=
  List.filter (fun u => String.eqb (User.token u) t) (users s).

(** The requests that go through [authMiddleware]. *)
Definition authorization_of (r : request) : option (option string) :=
  match r with
  | PostProducts a _ _ _ _ | PostOrders a _ _ | GetOrders a => Some a
  | _ => None
  end.

(** The quantity a [POST /orders] run commits against a listing: the
    requested quantity when the run answers 200, nothing otherwise. *)
Definition accepted_qty (listingId : string) (r : request) (a : response) : Q :=
  match r with
  | PostOrders _ productId (JNum q) =>
      if strict_eq productId (JStr listingId) && Nat.eqb (status a) 200 then q else 0
  | _ => 0
  end.

(** The identifier drawn for a new listing is not the identifier of a
    listing of the catalog. *)
Definition fresh_for (s : state) (r : request) (e : env) : Prop :=
  match r with
  | PostProducts _ _ _ _ _ =>
      forall p, In p (products s) -> Product.id p <> genId e
  | _ => True
  end.

(** What makes the ledger sum of a listing meaningful: listings have
    distinct identifiers, every order is an order against a listing of the
    catalog, and no listing is oversold. *)
Definition consistent (s : state) : Prop :=
  List.NoDup (List.map Product.id (products s))
  /\ (forall o, In o (orders s) ->
       exists p, In p (products s) /\ Order.productId o = JStr (Product.id p))
  /\ (forall p, In p (products s) ->
       committed (orders s) (Product.id p) <= Product.quantity p).

(** The session token a run draws, when it is a run that issues one. *)
Definition token_drawn (r : request) (e : env) : option string :=
  match r with
  | PostRegister _ _ | PostLogin _ _ => Some (genToken e)
  | _ => None
  end.

(** Every registered actor has a name that is not empty and one of the two
    roles. *)
Definition registered_well (s : state) : Prop :=
  forall u, In u (users s) ->
    truthy (User.name u) = true
    /\ (User.type u = JStr "farmer" \/ User.type u = JStr "buyer").

(** Every listing created in a sequence of runs gets an identifier that no
    listing of the catalog has at that time. *)
Fixpoint fresh_run (NumberToString : Q -> string) (s : state)
    (l : list (request * env)) : Prop :=
  match l with
  | [] => True
  | (r, e) :: rest =>
      fresh_for s r e /\ fresh_run NumberToString (fst (handle NumberToString s r e)) rest
  end.

(** *** Trends: the listings and the orders of a name *)

Section TrendsVocabulary.

Variable NumberToString : Q -> string.

(** The listing is one of the name [key]. *)
Definition named (key : string) (p : Product.t) : bool :=
  String.eqb (ToPropertyKey NumberToString (Product.name p)) key.

(** The order is an order against a listing of the name [key]. *)
Definition sale (key : string) (ps : list Product.t) (o : Order.t) : bool :=
  match findProduct ps (Order.productId o) with
  | Some p => named key p
  | None => false
  end.

(** The quantities of the orders against the listings of a name. *)
Definition ordered (key : string) (ps : list Product.t) (os : list Order.t) : list Q :=
  List.map Order.qty (List.filter (sale key ps) os).

(** What the third loop does to the entry of one name, for one order. *)
Definition credit (key : string) (ps : list Product.t) (acc : option trend)
    (o : Order.t) : option trend :=
  if sale key ps o
  then (fun t => mkTrend (totalPrice t) (count t)
                         (totalSalesQty t + Order.qty o) (avgPrice t)) <$> acc
  else acc.

End TrendsVocabulary.

(** ** Vocabulary of the further properties *)

(** The token a request presents: what follows [Bearer ] in its
    [Authorization] header, when the header starts that way. *)
Definition presented_token (authorization : option string) : option string :=
  match authorization with
  | Some h =>
      if String.prefix "Bearer " h
      then Some (String.substring 7 (String.length h - 7) h)
      else None
  | None => None
  end.

(** What no handler assigns in an actor's record. *)
Definition identity (u : User.t) : string * jsval * jsval :=
  (User.id u, User.name u, User.type u).

(** No two actors have the same name and the same role. *)
Definition distinct_actors (s : state) : Prop :=
  forall name type,
    (length (List.filter (same_name_type name type) (users s)) <= 1)%nat.

(** What every stored listing and every stored order satisfies. *)
Definition records_well (s : state) : Prop :=
  (forall p, In p (products s) ->
     truthy (Product.name p) = true
     /\ 0 < Product.price p /\ 0 < Product.quantity p
     /\ (truthy (Product.desc p) = true \/ Product.desc p = JStr ""))
  /\ (forall o, In o (orders s) ->
        0 < Order.qty o
        /\ (exists buyer, In buyer (users s) /\ User.id buyer = Order.buyerId o
                          /\ User.type buyer = JStr "buyer")
        /\ (exists p, In p (products s) /\ Order.productId o = JStr (Product.id p))).

(** ** Scenarios *)

(** The rendering of numbers the scenarios are evaluated with: the decimal
    digits of an integer, as [Number::toString] gives them, and
    numerator/denominator for the other numbers, which no scenario
    renders. *)
Definition showNumber (x : Q) : string :=
  let n := NilZero.string_of_int (Z.to_int (Qnum (Qred x))) in
  if Pos.eqb (Qden (Qred x)) 1
  then n
  else n ++ "/" ++ NilZero.string_of_uint (Pos.to_uint (Qden (Qred x))).

(** The draws of the [n]-th run of a scenario. *)
Definition draw (n : N) : env := mkEnv n (1000 + n) "2024-05-01T08:00:00.000Z".

(** The session token issued by the [n]-th run, as a client presents it. *)
Definition session (n : N) : option string := bearer (genToken (draw n)).

(** The end-to-end scenario of the specification: a producer lists 5 units
    at price 1; a first consumer orders 3, a second one orders 3 and then
    2. *)
Definition end_to_end : list (request * env) :=
  [ (PostRegister (JStr "P") (JStr "farmer"), draw 1);
    (PostProducts (session 1) (JStr "Carrot") JUndefined (JNum 1) (JNum 5), draw 2);
    (PostRegister (JStr "C1") (JStr "buyer"), draw 3);
    (PostRegister (JStr "C2") (JStr "buyer"), draw 4);
    (PostOrders (session 3) (JStr (genId (draw 2))) (JNum 3), draw 5);
    (PostOrders (session 4) (JStr (genId (draw 2))) (JNum 3), draw 6);
    (PostOrders (session 4) (JStr (genId (draw 2))) (JNum 2), draw 7) ].

(** The listing of the end-to-end scenario. *)
Definition carrots : Product.t :=
  Product.mk (genId (draw 2)) (genId (draw 1)) (JStr "Carrot") (JStr "") 1 5.

(** A store with one producer, one listing of 10 units and one consumer. *)
Definition shop : state :=
  fst (run showNumber init
         [ (PostRegister (JStr "Alice") (JStr "farmer"), draw 1);
           (PostProducts (session 1) (JStr "Tomato") (JStr "red") (JNum 2) (JNum 10),
            draw 2);
           (PostRegister (JStr "Bob") (JStr "buyer"), draw 3) ]).

Definition alice : User.t :=
  User.mk (genId (draw 1)) (JStr "Alice") (JStr "farmer") (genToken (draw 1)).

Definition bob : User.t :=
  User.mk (genId (draw 3)) (JStr "Bob") (JStr "buyer") (genToken (draw 3)).

Definition tomatoes : Product.t :=
  Product.mk (genId (draw 2)) (genId (draw 1)) (JStr "Tomato") (JStr "red") 2 10.

(** The trends example of the specification, with a third listing named
    after a property of [Object.prototype]. *)
Definition tomato_market : state :=
  fst (run showNumber init
         [ (PostRegister (JStr "Alice") (JStr "farmer"), draw 1);
           (PostRegister (JStr "Bob") (JStr "buyer"), draw 2);
           (PostProducts (session 1) (JStr "Tomato") JUndefined (JNum 2) (JNum 10), draw 3);
           (PostProducts (session 1) (JStr "Tomato") JUndefined (JNum 4) (JNum 10), draw 4);
           (PostProducts (session 1) (JStr "constructor") JUndefined (JNum 2) (JNum 10),
            draw 5);
           (PostOrders (session 2) (JStr (genId (draw 3))) (JNum 3), draw 6);
           (PostOrders (session 2) (JStr (genId (draw 4))) (JNum 5), draw 7);
           (PostOrders (session 2) (JStr (genId (draw 5))) (JNum 1), draw 8) ]).

(** The runs that lead to [shop]. *)
Definition shop_runs : list (request * env) :=
  [ (PostRegister (JStr "Alice") (JStr "farmer"), draw 1);
    (PostProducts (session 1) (JStr "Tomato") (JStr "red") (JNum 2) (JNum 10), draw 2);
    (PostRegister (JStr "Bob") (JStr "buyer"), draw 3) ].


Definition consumer : User.t :=
  User.mk (genId (draw 3)) (JStr "C1") (JStr "buyer") (genToken (draw 3)).

(** * The server in binary64

    The handlers again, with a JavaScript number as what it is: an IEEE 754
    binary64 value, added, subtracted, divided and compared as the
    processor does it ([PrimFloat]).  This is the embedding for every
    property that depends on what the sums and the comparisons give; the
    embedding above, with exact rationals, serves the properties that do
    not. *)

Module Binary64.

(** What a handler reads out of [req.body].  [JNum x] is a parsed JSON
    number: any binary64 value, infinities included (the literal [1e999]
    parses to [Infinity]); [JSON.parse] gives no NaN.  [JObj k] is an array
    or an object; [k] is the string it converts to as a property key, or
    [None] when that conversion throws a [TypeError] (an object whose
    [toString] property is not a function). *)
Inductive jsval : Type :=
| JUndefined
| JNull
| JBool (b : bool)
| JNum (x : float)
| JStr (s : string)
| JObj (k : option string).

(** [!!v] of JavaScript. *)
Definition truthy (v : jsval) : bool :=
  match v with
  | JUndefined | JNull => false
  | JBool b => b
  | JNum x => negb (PrimFloat.eqb x 0%float || PrimFloat.is_nan x)
  | JStr s => negb (String.eqb s "")
  | JObj _ => true
  end.

(** [a === b], for a stored value and a value of the request. *)
Definition strict_eq (a b : jsval) : bool :=
  match a, b with
  | JUndefined, JUndefined => true
  | JNull, JNull => true
  | JBool x, JBool y => Bool.eqb x y
  | JNum x, JNum y => PrimFloat.eqb x y
  | JStr x, JStr y => String.eqb x y
  | _, _ => false
  end.

(** [a || b] of JavaScript. *)
Definition js_or (a b : jsval) : jsval := if truthy a then a else b.

Module User.
(** [{id, name, type, token}] *)
Record t : Type := mk { id : string; name : jsval; type : jsval; token : string }.
End User.

Module Product.
(** [{id, farmerId, name, desc, price, quantity}] *)
Record t : Type := mk
  { id : string; farmerId : string; name : jsval; desc : jsval;
    price : float; quantity : float }.
End Product.

Module Order.
(** [{id, productId, buyerId, qty, date}] *)
Record t : Type := mk
  { id : string; productId : jsval; buyerId : string; qty : float; date : string }.
End Order.

(** The three arrays. *)
Record state : Type := mkState
  { users : list User.t; products : list Product.t; orders : list Order.t }.

(** The store of a server started on an empty data directory. *)
Definition init : state := mkState [] [] [].

Inductive request : Type :=
| PostRegister (name type : jsval)
| PostLogin (name type : jsval)
| GetProducts
| GetProduct (id : string)
| PostProducts (authorization : option string) (name desc price quantity : jsval)
| PostOrders (authorization : option string) (productId qty : jsval)
| GetOrders (authorization : option string)
| GetMarketTrends
| GetRoot.

(** An element of the answer of [GET /products]. *)
Record product_view : Type := mkView
  { v_id : string; v_farmerId : string; v_farmerName : jsval; v_name : jsval;
    v_desc : jsval; v_price : float; v_quantityAvailable : float }.

(** An entry of [trendData].  [avgPrice] is absent until the second loop
    of the handler. *)
Record trend : Type := mkTrend
  { totalPrice : float; count : float; totalSalesQty : float; avgPrice : option float }.

(** [Uncaught] is the answer Express gives when a handler throws. *)
Inductive payload : Type :=
| Error (error : string)
| UserJson (id : string) (name type : jsval) (token : string)
| ProductsJson (l : list product_view)
| ProductJson (p : Product.t) (farmerName : jsval) (quantityAvailable : float)
| NewProductJson (p : Product.t)
| NewOrderJson (o : Order.t)
| BuyerOrdersJson (l : list (Order.t * jsval * option string))
| FarmerOrdersJson (l : list (Order.t * jsval * jsval))
| TrendsJson (t : gmap string trend)
| Text (s : string)
| Uncaught.

Record response : Type := mkResponse { status : nat; body : payload }.

Definition json (p : payload) : response := mkResponse 200 p.
Definition fail (code : nat) (msg : string) : response := mkResponse code (Error msg).

Section Server.

(** [Number::toString] of the JavaScript runtime. *)
Variable NumberToString : float -> string.

(** The property key a value converts to in [trendData[p.name]], or
    [None] when the conversion throws. *)
Definition ToPropertyKey (v : jsval) : option string :=
  match v with
  | JUndefined => Some "undefined"
  | JNull => Some "null"
  | JBool true => Some "true"
  | JBool false => Some "false"
  | JNum x => Some (NumberToString x)
  | JStr s => Some s
  | JObj k => k
  end.

(** [authMiddleware] *)
Definition authMiddleware (s : state) (authorization : option string)
  : response + User.t :=
  match authorization with
  | None => inl (fail 401 "No token provided")
  | Some authHeader =>
      if negb (String.prefix "Bearer " authHeader)
      then inl (fail 401 "No token provided")
      else
        let token := String.substring 7 (String.length authHeader - 7) authHeader in
        match List.find (fun u => String.eqb (User.token u) token) (users s) with
        | None => inl (fail 401 "Invalid token")
        | Some user => inr user
        end
  end.

(** A route declared with [authMiddleware] in front of its handler. *)
Definition protected (s : state) (authorization : option string)
    (next : User.t -> state * response) : state * response :=
  match authMiddleware s authorization with
  | inl r => (s, r)
  | inr user => next user
  end.

(** The test both [/register] and [/login] start with. *)
Definition invalid_credentials (name type : jsval) : bool :=
  negb (truthy name) || negb (truthy type)
  || (negb (strict_eq type (JStr "farmer")) && negb (strict_eq type (JStr "buyer"))).

Definition same_name_type (name type : jsval) (u : User.t) : bool :=
  strict_eq (User.name u) name && strict_eq (User.type u) type.

(** [POST /register] *)
Definition register (s : state) (e : env) (name type : jsval) : state * response :=
  if invalid_credentials name type
  then (s, fail 400 "Invalid registration data")
  else
    match List.find (same_name_type name type) (users s) with
    | Some _ => (s, fail 400 "User already exists with this name and type")
    | None =>
        let id := genId e in
        let token := genToken e in
        let newUser := User.mk id name type token in
        (mkState (users s ++ [newUser]) (products s) (orders s),
         json (UserJson id name type token))
    end.

(** [user.token = t] for the object [users.find(f)] returned. *)
Fixpoint set_token_of_first (f : User.t -> bool) (t : string) (l : list User.t)
  : list User.t :=
  match l with
  | [] => []
  | u :: rest =>
      if f u
      then User.mk (User.id u) (User.name u) (User.type u) t :: rest
      else u :: set_token_of_first f t rest
  end.

(** [POST /login] *)
Definition login (s : state) (e : env) (name type : jsval) : state * response :=
  if invalid_credentials name type
  then (s, fail 400 "Invalid login data")
  else
    match List.find (same_name_type name type) (users s) with
    | None => (s, fail 400 "User not found, please register")
    | Some user =>
        let token := genToken e in
        (mkState (set_token_of_first (same_name_type name type) token (users s))
                 (products s) (orders s),
         json (UserJson (User.id user) (User.name user) (User.type user) token))
    end.

(** [orders.filter(o => o.productId === pid).reduce((acc,o) => acc + o.qty, 0)]:
    the additions are binary64 additions, made in ledger order. *)
Definition soldQty (os : list Order.t) (pid : jsval) : float :=
  fold_left (fun acc o => PrimFloat.add acc (Order.qty o))
            (List.filter (fun o => strict_eq (Order.productId o) pid) os) 0%float.

(** [u ? u.name : 'Unknown'] for [u = users.find(u => u.id === id)]. *)
Definition nameOf (us : list User.t) (id : string) : jsval :=
  match List.find (fun u => String.eqb (User.id u) id) us with
  | Some u => User.name u
  | None => JStr "Unknown"
  end.

(** [GET /products] *)
Definition getProducts (s : state) : response :=
  let prodsWithAvail :=
    List.filter (fun v => PrimFloat.ltb 0%float (v_quantityAvailable v))
      (List.map (fun p =>
         let soldQty := soldQty (orders s) (JStr (Product.id p)) in
         mkView (Product.id p) (Product.farmerId p)
                (nameOf (users s) (Product.farmerId p))
                (Product.name p) (Product.desc p) (Product.price p)
                (PrimFloat.sub (Product.quantity p) soldQty))
        (products s)) in
  json (ProductsJson prodsWithAvail).

Definition findProduct (ps : list Product.t) (id : jsval) : option Product.t :=
  List.find (fun p => strict_eq (JStr (Product.id p)) id) ps.

(** [GET /products/:id] *)
Definition getProduct (s : state) (id : string) : response :=
  match findProduct (products s) (JStr id) with
  | None => fail 404 "Product not found"
  | Some product =>
      let soldQty := soldQty (orders s) (JStr (Product.id product)) in
      let availability := PrimFloat.sub (Product.quantity product) soldQty in
      json (ProductJson product (nameOf (users s) (Product.farmerId product)) availability)
  end.

(** [typeof v !== 'number' || v <= 0], with the number when the test fails. *)
Definition positive_number (v : jsval) : option float :=
  match v with
  | JNum x => if PrimFloat.leb x 0%float then None else Some x
  | _ => None
  end.

(** The handler of [POST /products], after the middleware. *)
Definition addProduct (s : state) (e : env) (name desc price quantity : jsval)
    (user : User.t) : state * response :=
  if negb (strict_eq (User.type user) (JStr "farmer"))
  then (s, fail 403 "Only farmers can add products")
  else
    match truthy name, positive_number price, positive_number quantity with
    | true, Some price, Some quantity =>
        let newProd :=
          Product.mk (genId e) (User.id user) name (js_or desc (JStr "")) price quantity in
        (mkState (users s) (products s ++ [newProd]) (orders s),
         json (NewProductJson newProd))
    | _, _, _ => (s, fail 400 "Invalid product data")
    end.

(** The handler of [POST /orders], after the middleware.  [qty > available]
    is the binary64 comparison of the requested quantity with the binary64
    difference. *)
Definition placeOrder (s : state) (e : env) (productId qty : jsval)
    (user : User.t) : state * response :=
  if negb (strict_eq (User.type user) (JStr "buyer"))
  then (s, fail 403 "Only buyers can place orders")
  else
    match truthy productId, positive_number qty with
    | true, Some qty =>
        match findProduct (products s) productId with
        | None => (s, fail 404 "Product not found")
        | Some product =>
            let soldQty := soldQty (orders s) productId in
            let available := PrimFloat.sub (Product.quantity product) soldQty in
            if PrimFloat.ltb available qty
            then (s, fail 400 ("Quantity requested (" ++ NumberToString qty
                               ++ ") exceeds available quantity ("
                               ++ NumberToString available ++ ")"))
            else
              let newOrder := Order.mk (genId e) productId (User.id user) qty (now e) in
              (mkState (users s) (products s) (orders s ++ [newOrder]),
               json (NewOrderJson newOrder))
        end
    | _, _ => (s, fail 400 "Invalid order data")
    end.

(** The handler of [GET /orders], after the middleware. *)
Definition listOrders (s : state) (user : User.t) : state * response :=
  if strict_eq (User.type user) (JStr "buyer")
  then
    let userOrders :=
      List.map (fun o =>
          let product := findProduct (products s) (Order.productId o) in
          (o,
           match product with Some p => Product.name p | None => JStr "Unknown" end,
           match product with Some p => Some (Product.farmerId p) | None => None end))
        (List.filter (fun o => String.eqb (Order.buyerId o) (User.id user)) (orders s)) in
    (s, json (BuyerOrdersJson userOrders))
  else if strict_eq (User.type user) (JStr "farmer")
  then
    let farmerProds :=
      List.map Product.id
        (List.filter (fun p => String.eqb (Product.farmerId p) (User.id user)) (products s)) in
    let farmerOrders :=
      List.map (fun o =>
          let product := findProduct (products s) (Order.productId o) in
          (o,
           nameOf (users s) (Order.buyerId o),
           match product with Some p => Product.name p | None => JStr "Unknown" end))
        (List.filter (fun o =>
             existsb (fun id => strict_eq (JStr id) (Order.productId o)) farmerProds)
           (orders s)) in
    (s, json (FarmerOrdersJson farmerOrders))
  else (s, fail 400 "Unknown user type").

(** The first loop of [GET /market-trends], for one product; [None] when
    [trendData[p.name]] throws. *)
Definition addPrice (trendData : gmap string trend) (p : Product.t)
  : option (gmap string trend) :=
  match ToPropertyKey (Product.name p) with
  | None => None
  | Some key =>
      Some match trendData !! key with
           | Some t =>
               <[ key := mkTrend (PrimFloat.add (totalPrice t) (Product.price p))
                                 (PrimFloat.add (count t) 1%float)
                                 (totalSalesQty t) (avgPrice t) ]> trendData
           | None =>
               if inherited key then trendData
               else <[ key := mkTrend (PrimFloat.add 0%float (Product.price p))
                                      (PrimFloat.add 0%float 1%float) 0%float None ]>
                      trendData
           end
  end.

(** The second loop, for one entry. *)
Definition setAverage (t : trend) : trend :=
  mkTrend (totalPrice t) (count t) 0%float
          (Some (PrimFloat.div (totalPrice t) (count t))).

(** The third loop, for one order. *)
Definition addSales (ps : list Product.t) (trendData : gmap string trend)
    (order : Order.t) : option (gmap string trend) :=
  match findProduct ps (Order.productId order) with
  | None => Some trendData
  | Some product =>
      match ToPropertyKey (Product.name product) with
      | None => None
      | Some key =>
          Some match trendData !! key with
               | Some t =>
                   <[ key := mkTrend (totalPrice t) (count t)
                                     (PrimFloat.add (totalSalesQty t) (Order.qty order))
                                     (avgPrice t) ]> trendData
               | None => trendData
               end
      end
  end.

(** A [forEach] whose body may throw. *)
Fixpoint forEach {A B : Type} (f : B -> A -> option B) (l : list A) (b : B) : option B :=
  match l with
  | [] => Some b
  | x :: rest =>
      match f b x with
      | Some b' => forEach f rest b'
      | None => None
      end
  end.

(** The object [GET /market-trends] answers with, or [None] when the
    handler throws. *)
Definition marketTrends (s : state) : option (gmap string trend) :=
  match forEach addPrice (products s) (∅ : gmap string trend) with
  | None => None
  | Some trendData =>
      forEach (addSales (products s)) (orders s) (setAverage <$> trendData)
  end.

(** One handler run. *)
Definition handle (s : state) (r : request) (e : env) : state * response :=
  match r with
  | PostRegister name type => register s e name type
  | PostLogin name type => login s e name type
  | GetProducts => (s, getProducts s)
  | GetProduct id => (s, getProduct s id)
  | PostProducts authorization name desc price quantity =>
      protected s authorization (addProduct s e name desc price quantity)
  | PostOrders authorization productId qty =>
      protected s authorization (placeOrder s e productId qty)
  | GetOrders authorization => protected s authorization (listOrders s)
  | GetMarketTrends =>
      match marketTrends s with
      | Some trendData => (s, json (TrendsJson trendData))
      | None => (s, mkResponse 500 Uncaught)
      end
  | GetRoot => (s, mkResponse 200 (Text "Agriculture Project Backend API is running."))
  end.

(** A sequence of handler runs: the final store and the responses, in
    order. *)
Fixpoint run (s : state) (l : list (request * env)) : state * list response :=
  match l with
  | [] => (s, [])
  | (r, e) :: rest =>
      let '(s1, a) := handle s r e in
      let '(s2, answers) := run s1 rest in
      (s2, a :: answers)
  end.

End Server.

(** *** The specification's vocabulary, over binary64 values *)

(** The rational a binary64 value is; the infinities and NaN, which are
    no rationals, are given 0. *)
Definition exact (x : float) : Q :=
  match Prim2SF x with
  | S754_finite s m e =>
      (if s then - inject_Z (Zpos m) else inject_Z (Zpos m)) * Qpower 2 e
  | _ => 0
  end.

(** [order] is an order against the listing [listingId]. *)
Definition references (listingId : string) (order : Order.t) : bool :=
  strict_eq (Order.productId order) (JStr listingId).

(** The sum of the quantities of the orders against a listing, as a sum
    of rationals. *)
Fixpoint committed (ledger : list Order.t) (listingId : string) : Q :=
  match ledger with
  | [] => 0
  | o :: rest =>
      if references listingId o
      then exact (Order.qty o) + committed rest listingId
      else committed rest listingId
  end.

(** The specification's [remaining]: total quantity minus committed
    orders, as rationals. *)
Definition remaining (s : state) (listing : Product.t) : Q :=
  exact (Product.quantity listing) - committed (orders s) (Product.id listing).

(** The rendering of numbers the scenarios are evaluated with. *)
Definition showNumber (x : float) : string := showNumber (exact x).

End Binary64.

(** ** Scenarios in binary64 *)

Module Grain.
Import Binary64.

(** A listing of 2^53 + 4 units, the identifier it gets in [base], its
    owner and the buyer. *)
Definition id : string := genId (draw 2).

Definition farmer : User.t :=
  User.mk (genId (draw 1)) (JStr "P") (JStr "farmer") (genToken (draw 1)).

Definition buyer : User.t :=
  User.mk (genId (draw 3)) (JStr "C") (JStr "buyer") (genToken (draw 3)).

Definition listing : Product.t :=
  Product.mk id (genId (draw 1)) (JStr "Grain") (JStr "") 1%float
             9007199254740996%float.

(** The first order: 2^53 units. *)
Definition bulk : Order.t :=
  Order.mk (genId (draw 4)) (JStr id) (genId (draw 3)) 9007199254740992%float
           (now (draw 4)).

(** The farmer registers and lists the grain, the buyer registers and
    orders 2^53 units. *)
Definition base : list (request * env) :=
  [ (PostRegister (JStr "P") (JStr "farmer"), draw 1);
    (PostProducts (session 1) (JStr "Grain") JUndefined (JNum 1%float)
       (JNum 9007199254740996%float), draw 2);
    (PostRegister (JStr "C") (JStr "buyer"), draw 3);
    (PostOrders (session 3) (JStr id) (JNum 9007199254740992%float), draw 4) ].

(** The buyer orders one unit, once for each element of [draws]. *)
Definition units (draws : list env) : list (request * env) :=
  List.map (fun e => (PostOrders (session 3) (JStr id) (JNum 1%float), e)) draws.

(** An order of one unit of the grain. *)
Definition unit_order (o : Order.t) : Prop :=
  Order.productId o = JStr id /\ Order.qty o = 1%float.

(** The stores the scenario goes through: the two actors, the listing,
    the first order and then orders of one unit. *)
Definition reached (s : state) (n : nat) : Prop :=
  users s = [farmer; buyer] /\ products s = [listing]
  /\ exists ones, orders s = bulk :: ones /\ Forall unit_order ones /\ length ones = n.

End Grain.

(** The specification's 10 / 4 / 7 example, run from the empty store. *)
Definition ten_four_seven : list (Binary64.request * env) :=
  [ (Binary64.PostRegister (Binary64.JStr "P") (Binary64.JStr "farmer"), draw 1);
    (Binary64.PostProducts (session 1) (Binary64.JStr "Leek") Binary64.JUndefined
       (Binary64.JNum 1%float) (Binary64.JNum 10%float), draw 2);
    (Binary64.PostRegister (Binary64.JStr "C") (Binary64.JStr "buyer"), draw 3);
    (Binary64.GetProduct (genId (draw 2)), draw 4);
    (Binary64.PostOrders (session 3) (Binary64.JStr (genId (draw 2)))
       (Binary64.JNum 4%float), draw 5);
    (Binary64.GetProduct (genId (draw 2)), draw 6);
    (Binary64.PostOrders (session 3) (Binary64.JStr (genId (draw 2)))
       (Binary64.JNum 7%float), draw 7);
    (Binary64.GetProduct (genId (draw 2)), draw 8) ].

(** The trends example of the specification, run from the empty store:
    two listings named Tomato at prices 2 and 4, orders of 3 and 5 against
    them. *)
Definition tomato_example : list (Binary64.request * env) :=
  [ (Binary64.PostRegister (Binary64.JStr "Alice") (Binary64.JStr "farmer"), draw 1);
    (Binary64.PostRegister (Binary64.JStr "Bob") (Binary64.JStr "buyer"), draw 2);
    (Binary64.PostProducts (session 1) (Binary64.JStr "Tomato") Binary64.JUndefined
       (Binary64.JNum 2%float) (Binary64.JNum 10%float), draw 3);
    (Binary64.PostProducts (session 1) (Binary64.JStr "Tomato") Binary64.JUndefined
       (Binary64.JNum 4%float) (Binary64.JNum 10%float), draw 4);
    (Binary64.PostOrders (session 2) (Binary64.JStr (genId (draw 3)))
       (Binary64.JNum 3%float), draw 5);
    (Binary64.PostOrders (session 2) (Binary64.JStr (genId (draw 4)))
       (Binary64.JNum 5%float), draw 6);
    (Binary64.GetMarketTrends, draw 7) ].

(** A listing whose name is the object [{"toString": 1}], which converts
    to no property key. *)
Definition keyless_name : list (Binary64.request * env) :=
  [ (Binary64.PostRegister (Binary64.JStr "Alice") (Binary64.JStr "farmer"), draw 1);
    (Binary64.PostProducts (session 1) (Binary64.JObj None) Binary64.JUndefined
       (Binary64.JNum 2%float) (Binary64.JNum 10%float), draw 2);
    (Binary64.GetMarketTrends, draw 3) ].

(** ** Vocabulary of the registration property *)

(** The value is not an array or an object. *)
Definition primitive (v : Binary64.jsval) : bool :=
  match v with
  | Binary64.JObj _ => false
  | _ => true
  end.

(** Every registered user has a truthy name and one of the two roles, and
    its identifier and its token were drawn in one of the runs. *)
Definition drawn_in (l : list (Binary64.request * env))
    (s : Binary64.state) : Prop :=
  forall u, In u (Binary64.users s) ->
    Binary64.truthy (Binary64.User.name u) = true
    /\ (Binary64.User.type u = Binary64.JStr "farmer"
        \/ Binary64.User.type u = Binary64.JStr "buyer")
    /\ (exists r0 e0, In (r0, e0) l /\ Binary64.User.id u = genId e0)
    /\ (exists r0 e0, In (r0, e0) l /\ Binary64.User.token u = genToken e0).

(** * Properties *)

Section Properties.

Variable NumberToString : Q -> string.

Local Abbreviation handle := (handle NumberToString).
Local Abbreviation run := (run NumberToString).
Local Abbreviation placeOrder := (placeOrder NumberToString).
Local Abbreviation fresh_run := (fresh_run NumberToString).

(** ** Values *)

Lemma strict_eq_JStr_r (v : jsval) (s : string) :
  strict_eq v (JStr s) = true <-> v = JStr s.
Proof.
  destruct v; simpl; split; try discriminate.
  - intros H. apply String.eqb_eq in H. now subst.
  - intros [= ->]. apply String.eqb_refl.
Qed.

Lemma strict_eq_JStr_l (s : string) (v : jsval) :
  strict_eq (JStr s) v = true <-> v = JStr s.
Proof.
  destruct v; simpl; split; try discriminate.
  - intros H. apply String.eqb_eq in H. now subst.
  - intros [= ->]. apply String.eqb_refl.
Qed.

(** For a string, truthy is not empty. *)
Lemma truthy_JStr (n : string) : truthy (JStr n) = true <-> n <> "".
Proof.
  simpl. rewrite negb_true_iff. apply String.eqb_neq.
Qed.

Lemma positive_number_Some (v : jsval) (x : Q) :
  positive_number v = Some x <-> v = JNum x /\ 0 < x.
Proof.
  destruct v; simpl; try (split; [discriminate | intros [[=] _]]).
  destruct (Qle_bool x0 0) eqn:E.
  - split; [discriminate|]. intros [[= ->] H].
    apply Qle_bool_iff in E. lra.
  - split.
    + intros [= ->]. split; [reflexivity|].
      destruct (Qlt_le_dec 0 x) as [|H]; [assumption|].
      apply Qle_bool_iff in H. congruence.
    + intros [[= ->] _]. reflexivity.
Qed.

Lemma positive_number_None (v : jsval) :
  positive_number v = None <-> ~ positive v.
Proof.
  split.
  - intros H [x [-> Hx]].
    assert (positive_number (JNum x) = Some x) by (apply positive_number_Some; auto).
    congruence.
  - intros H. destruct (positive_number v) as [x|] eqn:E; [|reflexivity].
    apply positive_number_Some in E. exfalso. apply H. exists x. exact E.
Qed.

(** ** The ledger sum the handlers compute *)

Lemma fold_qty_shift (l : list Order.t) (a : Q) :
  fold_left (fun acc o => acc + Order.qty o) l a
  == a + fold_left (fun acc o => acc + Order.qty o) l 0.
Proof.
  revert a. induction l as [|o l IH]; intros a; simpl.
  - lra.
  - rewrite (IH (a + Order.qty o)), (IH (0 + Order.qty o)). lra.
Qed.

(** The [filter]/[reduce] of the handlers computes the specification's
    sum. *)
Lemma soldQty_committed (ledger : list Order.t) (listingId : string) :
  soldQty ledger (JStr listingId) == committed ledger listingId.
Proof.
  unfold soldQty. induction ledger as [|o l IH]; simpl; [reflexivity|].
  unfold references. destruct (strict_eq (Order.productId o) (JStr listingId)); simpl.
  - rewrite fold_qty_shift, IH. lra.
  - exact IH.
Qed.

Lemma committed_app (l1 l2 : list Order.t) (listingId : string) :
  committed (l1 ++ l2) listingId == committed l1 listingId + committed l2 listingId.
Proof.
  induction l1 as [|o l IH]; simpl; [lra|].
  destruct (references listingId o); rewrite IH; lra.
Qed.

Lemma findProduct_Some (ps : list Product.t) (v : jsval) (p : Product.t) :
  findProduct ps v = Some p -> In p ps /\ v = JStr (Product.id p).
Proof.
  unfold findProduct. intros H. apply find_some in H as [Hin H].
  apply strict_eq_JStr_l in H. auto.
Qed.

(** ** One handler run and the ledger *)

Ltac unfold_handlers :=
  unfold handle, protected, register, login, addProduct,
    placeOrder, listOrders in *.

Lemma authMiddleware_inl (s : state) (authorization : option string) (r : response) :
  authMiddleware s authorization = inl r -> status r = 401%nat.
Proof.
  unfold authMiddleware. intros H. repeat case_match; simplify_eq; reflexivity.
Qed.

Lemma authMiddleware_inr (s : state) (authorization : option string) (u : User.t) :
  authMiddleware s authorization = inr u -> In u (users s).
Proof.
  unfold authMiddleware. intros H. repeat case_match; simplify_eq.
  eapply find_some; eassumption.
Qed.

Lemma accepted_qty_failed (id : string) (r : request) (a : response) :
  Nat.eqb (status a) 200 = false -> accepted_qty id r a = 0.
Proof.
  intros H. destruct r; simpl; try reflexivity.
  repeat case_match; try reflexivity.
  rewrite H, andb_false_r in *. discriminate.
Qed.

(** A run either leaves the ledger as it is, and then it is no successful
    order, or it is a successful order: the caller is a buyer, the listing
    exists, the quantity is within what is available, and the one new
    record is put after the others. *)
Lemma handle_orders (s s' : state) (r : request) (e : env) (a : response) :
  handle s r e = (s', a) ->
  (orders s' = orders s /\ forall id, accepted_qty id r a = 0)
  \/ exists authorization productId q user product,
       r = PostOrders authorization productId (JNum q)
       /\ authMiddleware s authorization = inr user
       /\ User.type user = JStr "buyer"
       /\ findProduct (products s) productId = Some product
       /\ 0 < q
       /\ q <= Product.quantity product - soldQty (orders s) productId
       /\ s' = mkState (users s) (products s)
                 (orders s ++ [Order.mk (genId e) productId (User.id user) q (now e)])
       /\ a = json (NewOrderJson (Order.mk (genId e) productId (User.id user) q (now e))).
Proof.
  intros H. destruct r; unfold_handlers;
    try (left; repeat case_match; simplify_eq; simpl; split; reflexivity).
  destruct (authMiddleware s authorization) as [r0|user] eqn:Hauth.
  { left. simplify_eq. split; [reflexivity|]. intros id.
    apply accepted_qty_failed. now rewrite (authMiddleware_inl _ _ _ Hauth). }
  destruct (negb (strict_eq (User.type user) (JStr "buyer"))) eqn:Hty.
  { left. simplify_eq. split; [reflexivity|]. intros id.
    now apply accepted_qty_failed. }
  apply negb_false_iff, strict_eq_JStr_r in Hty.
  destruct (truthy productId) eqn:Hpid; cycle 1.
  { left. simplify_eq. split; [reflexivity|]. intros id.
    now apply accepted_qty_failed. }
  destruct (positive_number qty) as [q|] eqn:Hq; cycle 1.
  { left. simplify_eq. split; [reflexivity|]. intros id.
    now apply accepted_qty_failed. }
  apply positive_number_Some in Hq as [-> Hq].
  destruct (findProduct (products s) productId) as [product|] eqn:Hfind; cycle 1.
  { left. simplify_eq. split; [reflexivity|]. intros id.
    now apply accepted_qty_failed. }
  destruct (negb (Qle_bool q (Product.quantity product - soldQty (orders s) productId)))
    eqn:Hle.
  { left. simplify_eq. split; [reflexivity|]. intros id.
    now apply accepted_qty_failed. }
  right. apply negb_false_iff, Qle_bool_iff in Hle. simplify_eq.
  exists authorization, productId, q, user, product. tauto.
Qed.

(** C9. The ledger is append-only and only a successful order writes to
    it: a run of any handler but [POST /orders], and a run of
    [POST /orders] that does not answer 200, leaves the ledger as it is; a
    run of [POST /orders] that answers 200 puts exactly one record, the one
    it answers with, after the records already there; and after any sequence
    of runs the ledger starts with the records it had before, unchanged and
    in the same order. *)
Theorem ledger_append_only (s : state) :
  (forall r e,
      match r with
      | PostOrders _ _ _ =>
          if Nat.eqb (status (snd (handle s r e))) 200
          then exists o, orders (fst (handle s r e)) = (orders s ++ [o])%list
                         /\ body (snd (handle s r e)) = NewOrderJson o
                         /\ users (fst (handle s r e)) = users s
                         /\ products (fst (handle s r e)) = products s
          else fst (handle s r e) = s
      | _ => orders (fst (handle s r e)) = orders s
      end)
  /\ (forall l, exists added,
         orders (fst (run s l)) = (orders s ++ added)%list
         /\ length added
            = length (List.filter (fun a => Nat.eqb (status a) 200 &&
                                            match body a with
                                            | NewOrderJson _ => true
                                            | _ => false
                                            end) (snd (run s l)))).
Proof.
  split.
  - intros r e. destruct (handle s r e) as [s' a] eqn:H.
    pose proof (handle_orders _ _ _ _ _ H) as [[Ho Hacc]|Hok].
    + destruct r; simpl; try exact Ho.
      destruct (Nat.eqb (status a) 200) eqn:Hst.
      * exfalso. apply Nat.eqb_eq in Hst.
        unfold_handlers. unfold authMiddleware in H.
        repeat case_match; simplify_eq; simpl in *;
          solve [discriminate | apply (f_equal length) in Ho;
                 rewrite length_app in Ho; simpl in Ho; lia].
      * unfold_handlers. unfold authMiddleware in H.
        repeat case_match; simplify_eq; simpl in *; solve [reflexivity | discriminate].
    + destruct Hok as (au & pid & q & u & p & -> & _ & _ & _ & _ & _ & -> & ->).
      simpl. eexists. repeat split.
  - intros l. revert s. induction l as [|[r e] l IH]; intros s0.
    + exists []. simpl. rewrite app_nil_r. auto.
    + simpl. destruct (handle s0 r e) as [s1 a] eqn:H.
      destruct (IH s1) as [added [Hadd Hlen]].
      destruct (run s1 l) as [s2 answers] eqn:Hrun.
      simpl in *.
      pose proof (handle_orders _ _ _ _ _ H) as [[Ho Hacc]|Hok].
      * exists added. rewrite Hadd, Ho. split; [reflexivity|].
        rewrite Hlen.
        destruct (Nat.eqb (status a) 200) eqn:Hst; simpl; [|reflexivity].
        destruct (body a) eqn:Hb; simpl; try reflexivity.
        exfalso. apply Nat.eqb_eq in Hst.
        destruct r; unfold_handlers; unfold authMiddleware, getProducts, getProduct in H;
          repeat case_match; simplify_eq; simpl in *; try discriminate.
        apply (f_equal length) in Ho. rewrite length_app in Ho. simpl in Ho. lia.
      * destruct Hok as (au & pid & q & u & p & -> & _ & _ & _ & _ & _ & -> & ->).
        simpl in *. eexists (_ :: added). rewrite Hadd, <- app_assoc. simpl.
        split; [reflexivity|]. now rewrite Hlen.
Qed.

(** ** Role and input checks *)

Lemma strict_eq_JStr_r_false (v : jsval) (s : string) :
  v <> JStr s -> strict_eq v (JStr s) = false.
Proof.
  intros H. destruct (strict_eq v (JStr s)) eqn:E; [|reflexivity].
  apply strict_eq_JStr_r in E. contradiction.
Qed.

Lemma findProduct_None (ps : list Product.t) (v : jsval) :
  (forall p, In p ps -> v <> JStr (Product.id p)) -> findProduct ps v = None.
Proof.
  intros H. destruct (findProduct ps v) as [p|] eqn:E; [|reflexivity].
  apply findProduct_Some in E as [Hin ->]. now destruct (H p Hin).
Qed.

(** C3, as the handler has it.  A [POST /orders] run of an authenticated
    caller who is not a buyer answers 403; otherwise, when the listing
    identifier is missing or the quantity is not a number greater than
    zero, it answers 400 "Invalid order data", whether the listing exists or
    not; otherwise, when the identifier is the identifier of no listing, it
    answers 404.  In each of the three cases the store is left as it is. *)
Theorem placeOrder_precondition_failures
    (s : state) (e : env) (authorization : option string)
    (productId qty : jsval) (user : User.t) :
  authMiddleware s authorization = inr user ->
  (User.type user <> JStr "buyer" ->
     handle s (PostOrders authorization productId qty) e
     = (s, fail 403 "Only buyers can place orders"))
  /\ (User.type user = JStr "buyer" ->
      truthy productId = false \/ ~ positive qty ->
      handle s (PostOrders authorization productId qty) e
      = (s, fail 400 "Invalid order data"))
  /\ (User.type user = JStr "buyer" ->
      truthy productId = true -> positive qty ->
      (forall p, In p (products s) -> productId <> JStr (Product.id p)) ->
      handle s (PostOrders authorization productId qty) e
      = (s, fail 404 "Product not found")).
Proof.
  intros Hauth. unfold_handlers. rewrite Hauth. repeat split.
  - intros Hty. now rewrite (strict_eq_JStr_r_false _ _ Hty).
  - intros -> [Hpid|Hqty]; simpl.
    + rewrite Hpid. reflexivity.
    + apply positive_number_None in Hqty. rewrite Hqty.
      now destruct (truthy productId).
  - intros -> Hpid [q [-> Hq]] Hnone.
    assert (Hpos : positive_number (JNum q) = Some q)
      by (apply positive_number_Some; auto).
    rewrite Hpid, Hpos, (findProduct_None _ _ Hnone). reflexivity.
Qed.


(** ** Listings and the ledger *)

Lemma committed_unreferenced (ledger : list Order.t) (id : string) :
  (forall o, In o ledger -> Order.productId o <> JStr id) ->
  committed ledger id = 0.
Proof.
  induction ledger as [|o l IH]; intros H; simpl; [reflexivity|].
  unfold references. rewrite strict_eq_JStr_r_false by (apply H; now left).
  apply IH. intros o' Ho'. apply H. now right.
Qed.

Lemma same_id_same_product (ps : list Product.t) (p p' : Product.t) :
  List.NoDup (List.map Product.id ps) -> In p ps -> In p' ps ->
  Product.id p = Product.id p' -> p = p'.
Proof.
  induction ps as [|x ps IH]; simpl; intros Hnd Hp Hp' Hid; [contradiction|].
  inversion Hnd as [|? ? Hx Hnd']; subst.
  destruct Hp as [->|Hp], Hp' as [->|Hp']; auto.
  - exfalso. apply Hx. rewrite Hid. now apply in_map.
  - exfalso. apply Hx. rewrite <- Hid. now apply in_map.
Qed.

(** A run either leaves the catalog as it is or is a successful
    [POST /products], which puts one listing with the drawn identifier and
    a quantity greater than zero at the end of the catalog. *)
Lemma handle_products (s s' : state) (r : request) (e : env) (a : response) :
  handle s r e = (s', a) ->
  products s' = products s
  \/ exists p, (exists au name desc price quantity,
                   r = PostProducts au name desc price quantity)
               /\ products s' = (products s ++ [p])%list
               /\ orders s' = orders s
               /\ Product.id p = genId e /\ 0 < Product.quantity p
               /\ users s' = users s
               /\ exists user, In user (users s)
                               /\ User.id user = Product.farmerId p
                               /\ User.type user = JStr "farmer".
Proof.
  intros H. destruct r; unfold_handlers;
    try (left; repeat case_match; simplify_eq; reflexivity).
  destruct (authMiddleware s authorization) as [r0|user] eqn:Hauth;
    [left; now simplify_eq|].
  destruct (negb (strict_eq (User.type user) (JStr "farmer"))) eqn:Hty;
    [left; now simplify_eq|].
  destruct (truthy name); [|left; now simplify_eq].
  destruct (positive_number price) as [p|]; [|left; now simplify_eq].
  destruct (positive_number quantity) as [q|] eqn:Hq; [|left; now simplify_eq].
  apply positive_number_Some in Hq as [-> Hq]. simplify_eq. right.
  apply negb_false_iff, strict_eq_JStr_r in Hty.
  apply authMiddleware_inr in Hauth.
  eexists. split; [repeat eexists|]. simpl. repeat split; auto.
  exists user. auto.
Qed.

Lemma consistent_init : consistent init.
Proof.
  repeat split; simpl; [constructor | contradiction | contradiction].
Qed.

(** One run keeps the store consistent, when a listing it creates gets an
    identifier that is not in use. *)
Lemma consistent_handle (s : state) (r : request) (e : env) :
  consistent s -> fresh_for s r e -> consistent (fst (handle s r e)).
Proof.
  intros (Hnd & Href & Hsum) Hfresh.
  destruct (handle s r e) as [s' a] eqn:H. simpl.
  pose proof (handle_orders _ _ _ _ _ H) as [[Ho _]|Hok].
  - pose proof (handle_products _ _ _ _ _ H) as [Hp|(p & Hr & Hp & _ & Hid & Hq & _)].
    + unfold consistent. rewrite Ho, Hp. auto.
    + destruct Hr as (au & name & desc & price & quantity & ->). simpl in Hfresh.
      assert (Hnew : forall o, In o (orders s) -> Order.productId o <> JStr (Product.id p)).
      { intros o Ho' Heq. destruct (Href o Ho') as (p' & Hin & Hp').
        rewrite Hp' in Heq. injection Heq as Heq.
        apply (Hfresh p' Hin). congruence. }
      unfold consistent. rewrite Ho, Hp. repeat split.
      * rewrite map_app. simpl. apply List.NoDup_app.
        -- exact Hnd.
        -- constructor; [intros []|constructor].
        -- intros x Hx [Hx'|[]]. apply in_map_iff in Hx as (p' & <- & Hin).
           apply (Hfresh p' Hin). congruence.
      * intros o Ho'. destruct (Href o Ho') as (p' & Hin & Hp').
        exists p'. split; [apply in_or_app; now left|assumption].
      * intros p' Hin. apply in_app_or in Hin as [Hin|[<-|[]]].
        -- now apply Hsum.
        -- rewrite (committed_unreferenced _ _ Hnew). lra.
  - destruct Hok as (au & pid & q & u & p & -> & _ & _ & Hfind & Hq & Hle & -> & ->).
    apply findProduct_Some in Hfind as [Hin ->]. simpl. repeat split; simpl.
    + exact Hnd.
    + intros o Ho. apply in_app_or in Ho as [Ho|[<-|[]]]; [now apply Href|].
      exists p. now split.
    + intros p' Hin'. rewrite committed_app. simpl. unfold references. simpl.
      destruct (String.eqb (Product.id p) (Product.id p')) eqn:E.
      * apply String.eqb_eq in E.
        assert (p = p') by (eapply same_id_same_product; eauto). subst p'.
        rewrite soldQty_committed in Hle. lra.
      * specialize (Hsum p' Hin'). lra.
Qed.

Lemma consistent_run (l : list (request * env)) (s : state) :
  consistent s -> fresh_run s l -> consistent (fst (run s l)).
Proof.
  revert s. induction l as [|[r e] l IH]; intros s Hs Hf; simpl; [exact Hs|].
  destruct Hf as [Hf Hrest].
  pose proof (consistent_handle s r e Hs Hf) as Hs1.
  destruct (handle s r e) as [s1 a]. simpl in *.
  specialize (IH s1 Hs1 Hrest).
  destruct (run s1 l) as [s2 answers]. exact IH.
Qed.

Lemma filter_unreferenced (ledger : list Order.t) (id : string) :
  (forall o, In o ledger -> Order.productId o <> JStr id) ->
  List.filter (fun o => strict_eq (Order.productId o) (JStr id)) ledger = [].
Proof.
  induction ledger as [|o l IH]; intros H; simpl; [reflexivity|].
  rewrite strict_eq_JStr_r_false by (apply H; now left).
  apply IH. intros o' Ho'. apply H. now right.
Qed.

(** ** Registration *)

Lemma invalid_credentials_false (name type : jsval) :
  invalid_credentials name type = false <->
  truthy name = true /\ (type = JStr "farmer" \/ type = JStr "buyer").
Proof.
  unfold invalid_credentials. split.
  - intros H. apply orb_false_iff in H as [H Hty].
    apply orb_false_iff in H as [Hn _].
    apply negb_false_iff in Hn. split; [exact Hn|].
    apply andb_false_iff in Hty as [Hty|Hty]; apply negb_false_iff in Hty;
      apply strict_eq_JStr_r in Hty; auto.
  - intros [Hn [-> | ->]]; rewrite Hn; reflexivity.
Qed.

Lemma in_set_token_of_first (f : User.t -> bool) (t : string) (l : list User.t)
    (u : User.t) :
  In u (set_token_of_first f t l) ->
  exists u0, In u0 l /\ User.id u = User.id u0 /\ User.name u = User.name u0
             /\ User.type u = User.type u0.
Proof.
  induction l as [|x l IH]; simpl; [contradiction|].
  destruct (f x).
  - intros [<-|Hin]; [exists x | exists u]; simpl; auto.
  - intros [<-|Hin]; [exists x; simpl; auto|].
    destruct (IH Hin) as (u0 & ? & ?). exists u0. auto.
Qed.

(** A run either leaves the actors as they are, or is a successful
    registration, which puts one actor after the others, or is a successful
    login, which replaces the token of the first actor of that name and
    role. *)
Lemma handle_users (s s' : state) (r : request) (e : env) (a : response) :
  handle s r e = (s', a) ->
  users s' = users s
  \/ (exists name type,
         r = PostRegister name type
         /\ invalid_credentials name type = false
         /\ List.find (same_name_type name type) (users s) = None
         /\ users s' = (users s ++ [User.mk (genId e) name type (genToken e)])%list)
  \/ (exists name type u,
         r = PostLogin name type
         /\ List.find (same_name_type name type) (users s) = Some u
         /\ users s' = set_token_of_first (same_name_type name type) (genToken e) (users s)).
Proof.
  intros H. destruct r; unfold_handlers;
    try (left; repeat case_match; simplify_eq; reflexivity).
  - destruct (invalid_credentials name type) eqn:Hv; [left; now simplify_eq|].
    destruct (List.find _ _) eqn:Hf; [left; now simplify_eq|].
    simplify_eq. right. left. exists name, type. auto.
  - destruct (invalid_credentials name type) eqn:Hv; [left; now simplify_eq|].
    destruct (List.find _ _) eqn:Hf; [|left; now simplify_eq].
    simplify_eq. right. right. exists name, type, t. auto.
Qed.

Lemma registered_well_handle (s : state) (r : request) (e : env) :
  registered_well s -> registered_well (fst (handle s r e)).
Proof.
  intros Hs. destruct (handle s r e) as [s' a] eqn:H. simpl.
  destruct (handle_users _ _ _ _ _ H)
    as [Hu|[(name & type & _ & Hv & _ & Hu)|(name & type & u & _ & _ & Hu)]];
    unfold registered_well; rewrite Hu.
  - exact Hs.
  - intros u Hin. apply in_app_or in Hin as [Hin|[<-|[]]]; [now apply Hs|].
    simpl. now apply invalid_credentials_false.
  - intros u' Hin. apply in_set_token_of_first in Hin as (u0 & Hin & _ & -> & ->).
    now apply Hs.
Qed.

Lemma registered_well_run (l : list (request * env)) (s : state) :
  registered_well s -> registered_well (fst (run s l)).
Proof.
  revert s. induction l as [|[r e] l IH]; intros s Hs; simpl; [exact Hs|].
  pose proof (registered_well_handle s r e Hs) as Hs1.
  destruct (handle s r e) as [s1 a]. simpl in *.
  specialize (IH s1 Hs1).
  destruct (run s1 l) as [s2 answers]. exact IH.
Qed.

(** ** Session tokens *)

Lemma substring_all (t : string) : String.substring 0 (String.length t) t = t.
Proof. induction t as [|c t IH]; simpl; [reflexivity|now rewrite IH]. Qed.

Lemma bearer_prefix (t : string) : String.prefix "Bearer " ("Bearer " ++ t) = true.
Proof. cbv [append]. simpl. now destruct t. Qed.

Lemma bearer_substring (t : string) :
  String.substring 7 (String.length ("Bearer " ++ t) - 7) ("Bearer " ++ t) = t.
Proof. cbv [append]. simpl. rewrite Nat.sub_0_r. apply substring_all. Qed.

(** What [authMiddleware] does with the header [Bearer t]. *)
Lemma authMiddleware_bearer (s : state) (t : string) :
  authMiddleware s (bearer t)
  = match List.find (fun u => String.eqb (User.token u) t) (users s) with
    | None => inl (fail 401 "Invalid token")
    | Some user => inr user
    end.
Proof.
  unfold authMiddleware, bearer.
  rewrite bearer_prefix, bearer_substring. reflexivity.
Qed.

Lemma find_filter_nil {A : Type} (f : A -> bool) (l : list A) :
  List.filter f l = [] -> List.find f l = None.
Proof.
  induction l as [|x l IH]; simpl; [reflexivity|].
  destruct (f x); [discriminate|exact IH].
Qed.

Lemma find_filter_one {A : Type} (f : A -> bool) (l : list A) (x : A) :
  List.filter f l = [x] -> List.find f l = Some x.
Proof.
  induction l as [|y l IH]; simpl; [discriminate|].
  destruct (f y); [now intros [= ->]|exact IH].
Qed.

(** A token no actor holds is answered with 401 on every protected route,
    and the store is left as it is. *)
Lemma stale_token_unauthenticated (s : state) (t : string) (r : request) (e : env) :
  holders s t = [] -> authorization_of r = Some (bearer t) ->
  handle s r e = (s, fail 401 "Invalid token").
Proof.
  intros Hnone Hr. apply find_filter_nil in Hnone.
  destruct r; simpl in Hr; try discriminate; injection Hr as ->;
    unfold handle, protected; rewrite authMiddleware_bearer, Hnone; reflexivity.
Qed.

Lemma filter_set_token_nil (f : User.t -> bool) (t new : string) (l : list User.t) :
  new <> t ->
  List.filter (fun u => String.eqb (User.token u) t) l = [] ->
  List.filter (fun u => String.eqb (User.token u) t) (set_token_of_first f new l) = [].
Proof.
  intros Hnew. induction l as [|u l IH]; simpl; [reflexivity|].
  destruct (String.eqb (User.token u) t) eqn:E; [discriminate|]. intros Hl.
  destruct (f u); simpl.
  - apply String.eqb_neq in Hnew. now rewrite Hnew.
  - rewrite E. now apply IH.
Qed.

(** The login of the only holder of a token leaves that token with no
    holder. *)
Lemma filter_set_token_rotated (f : User.t -> bool) (new : string)
    (l : list User.t) (actor : User.t) :
  new <> User.token actor ->
  List.find f l = Some actor ->
  List.filter (fun u => String.eqb (User.token u) (User.token actor)) l = [actor] ->
  List.filter (fun u => String.eqb (User.token u) (User.token actor))
              (set_token_of_first f new l) = [].
Proof.
  intros Hnew. apply String.eqb_neq in Hnew.
  induction l as [|u l IH]; simpl; [discriminate|].
  destruct (f u) eqn:Hf.
  - intros [= ->]. rewrite String.eqb_refl. intros [= Hl]. simpl. now rewrite Hnew.
  - intros Hfind. destruct (String.eqb (User.token u) (User.token actor)) eqn:E.
    + intros [= -> _]. apply find_some in Hfind as [_ Hfa]. congruence.
    + intros Hl. simpl. rewrite E. now apply IH.
Qed.

(** A token no actor holds stays without a holder as long as no run draws
    it. *)
Lemma no_holder_handle (s : state) (r : request) (e : env) (t : string) :
  holders s t = [] -> token_drawn r e <> Some t ->
  holders (fst (handle s r e)) t = [].
Proof.
  intros Hnone Hdraw. destruct (handle s r e) as [s' a] eqn:H. simpl.
  unfold holders in *.
  destruct (handle_users _ _ _ _ _ H)
    as [Hu|[(name & type & -> & _ & _ & Hu)|(name & type & u & -> & _ & Hu)]];
    rewrite Hu.
  - exact Hnone.
  - rewrite List.filter_app, Hnone. simpl.
    destruct (String.eqb (genToken e) t) eqn:E; [|reflexivity].
    apply String.eqb_eq in E. simpl in Hdraw. congruence.
  - apply filter_set_token_nil; [|exact Hnone].
    simpl in Hdraw. congruence.
Qed.

Lemma no_holder_run (l : list (request * env)) (s : state) (t : string) :
  holders s t = [] ->
  (forall r e, In (r, e) l -> token_drawn r e <> Some t) ->
  holders (fst (run s l)) t = [].
Proof.
  revert s. induction l as [|[r e] l IH]; intros s Hs Hl; simpl; [exact Hs|].
  pose proof (no_holder_handle s r e t Hs (Hl r e (or_introl eq_refl))) as Hs1.
  destruct (handle s r e) as [s1 a]. simpl in *.
  specialize (IH s1 Hs1 (fun r' e' Hin => Hl r' e' (or_intror Hin))).
  destruct (run s1 l) as [s2 answers]. exact IH.
Qed.

(** C5. Token rotation invalidates the prior session.  When [POST /login]
    succeeds for an actor who is the only holder of their token, and the
    token drawn is another one, the answer carries the actor with the drawn
    token, the actor's record holds the drawn token, no actor holds the
    previous token, and from then on, as long as no registration or login
    draws the previous token again, every protected route presented with
    the previous token answers 401 and leaves the store as it is. *)
Theorem token_rotation (s : state) (e : env) (name type : jsval) (actor : User.t) :
  status (snd (handle s (PostLogin name type) e)) = 200%nat ->
  List.find (same_name_type name type) (users s) = Some actor ->
  holders s (User.token actor) = [actor] ->
  genToken e <> User.token actor ->
  let s' := fst (handle s (PostLogin name type) e) in
  let rotated :=
    User.mk (User.id actor) (User.name actor) (User.type actor) (genToken e) in
  snd (handle s (PostLogin name type) e)
  = json (UserJson (User.id actor) (User.name actor) (User.type actor) (genToken e))
  /\ In rotated (users s')
  /\ holders s' (User.token actor) = []
  /\ forall (l : list (request * env)) (r : request) (e' : env),
       (forall r0 e0, In (r0, e0) l -> token_drawn r0 e0 <> Some (User.token actor)) ->
       authorization_of r = Some (bearer (User.token actor)) ->
       handle (fst (run s' l)) r e'
       = (fst (run s' l), fail 401 "Invalid token").
Proof.
  intros Hok Hfind Hone Hnew. simpl in *. unfold login in *.
  destruct (invalid_credentials name type) eqn:Hv; [discriminate|].
  rewrite Hfind in *. simpl.
  assert (Hstale : holders
            (mkState (set_token_of_first (same_name_type name type) (genToken e) (users s))
                     (products s) (orders s)) (User.token actor) = []).
  { unfold holders. simpl. apply filter_set_token_rotated; assumption. }
  repeat split.
  - clear -Hfind. induction (users s) as [|u l IH]; simpl in *; [discriminate|].
    destruct (same_name_type name type u); [left; congruence|right; auto].
  - exact Hstale.
  - intros l r e' Hl Hr.
    apply (stale_token_unauthenticated _ (User.token actor)); [|exact Hr].
    apply no_holder_run; assumption.
Qed.

(** C10. Issue and resolve.  In a store where exactly one actor holds the
    token [t], [authMiddleware] resolves the header [Bearer t] to that
    actor, each protected route runs its handler on behalf of that actor,
    and none answers 401.  A successful registration and a successful
    login put the store in that situation for the token they answer with,
    when the token drawn was held by no actor. *)
Theorem token_resolves :
  (forall (s : state) (t : string) (actor : User.t),
      holders s t = [actor] ->
      authMiddleware s (bearer t) = inr actor
      /\ (forall e name desc price quantity,
             handle s (PostProducts (bearer t) name desc price quantity) e
             = addProduct s e name desc price quantity actor)
      /\ (forall e productId qty,
             handle s (PostOrders (bearer t) productId qty) e
             = placeOrder s e productId qty actor)
      /\ (forall e, handle s (GetOrders (bearer t)) e = listOrders s actor)
      /\ (forall r e, authorization_of r = Some (bearer t) ->
                      status (snd (handle s r e)) <> 401%nat))
  /\ (forall (s : state) (e : env) (r : request) (id : string) (name type : jsval)
             (token : string),
         token_drawn r e = Some (genToken e) ->
         snd (handle s r e) = json (UserJson id name type token) ->
         holders s (genToken e) = [] ->
         token = genToken e
         /\ holders (fst (handle s r e)) token = [User.mk id name type token]).
Proof.
  split.
  - intros s t actor Hone. apply find_filter_one in Hone.
    assert (Hauth : authMiddleware s (bearer t) = inr actor)
      by (now rewrite authMiddleware_bearer, Hone).
    repeat split; try (intros; unfold handle, protected; now rewrite Hauth).
    intros r e Hr Hst.
    destruct r; simpl in Hr; try discriminate; injection Hr as ->;
      unfold handle, protected in Hst; rewrite Hauth in Hst;
      unfold addProduct, placeOrder, listOrders in Hst;
      repeat case_match; simpl in Hst; discriminate.
  - intros s e r id name type token Hr Ha Hnone. unfold holders in *.
    destruct r; simpl in Hr; try discriminate; simpl in Ha |- *.
    + unfold register in *.
      destruct (invalid_credentials name0 type0); [discriminate|].
      destruct (List.find _ _); [discriminate|].
      simpl in *. injection Ha as -> -> -> <-. split; [reflexivity|].
      rewrite List.filter_app, Hnone. simpl. now rewrite String.eqb_refl.
    + unfold login in *.
      destruct (invalid_credentials name0 type0); [discriminate|].
      destruct (List.find _ _) as [u|] eqn:Hf; [|discriminate].
      simpl in *. injection Ha as <- <- <- <-. split; [reflexivity|].
      clear -Hf Hnone. induction (users s) as [|x l IH]; simpl in *; [discriminate|].
      destruct (String.eqb (User.token x) (genToken e)) eqn:E; [discriminate|].
      destruct (same_name_type name0 type0 x).
      * injection Hf as ->. simpl. rewrite String.eqb_refl. now rewrite Hnone.
      * simpl. rewrite E. now apply IH.
Qed.

Lemma set_token_of_first_keeps (f : User.t -> bool) (t : string) (l : list User.t)
    (u : User.t) :
  In u l ->
  exists u', In u' (set_token_of_first f t l) /\ User.id u' = User.id u
             /\ User.name u' = User.name u /\ User.type u' = User.type u.
Proof.
  induction l as [|x l IH]; simpl; [contradiction|].
  destruct (f x) eqn:Hf.
  - intros [->|Hin]; [|exists u; simpl; auto].
    eexists. split; [left; reflexivity|]. simpl. auto.
  - intros [->|Hin]; [exists u; simpl; auto|].
    destruct (IH Hin) as (u' & ? & ?). exists u'. simpl. auto.
Qed.

(** ** Market trends *)

Local Abbreviation addPrice := (addPrice NumberToString).
Local Abbreviation addSales := (addSales NumberToString).
Local Abbreviation marketTrends := (marketTrends NumberToString).
Local Abbreviation named := (named NumberToString).
Local Abbreviation sale := (sale NumberToString).
Local Abbreviation ordered := (ordered NumberToString).
Local Abbreviation credit := (credit NumberToString).

Lemma addPrice_lookup_inherited (key : string) (m : gmap string trend) (p : Product.t) :
  inherited key = true -> m !! key = None -> addPrice m p !! key = None.
Proof.
  intros Hkey Hm. unfold addPrice.
  destruct (String.eqb_spec (ToPropertyKey NumberToString (Product.name p)) key)
    as [->|Hne].
  - now rewrite Hm, Hkey.
  - repeat case_match; rewrite ?lookup_insert_ne by exact Hne; exact Hm.
Qed.

Lemma addSales_lookup (key : string) (ps : list Product.t) (m : gmap string trend)
    (o : Order.t) :
  addSales ps m o !! key = credit key ps (m !! key) o.
Proof.
  unfold addSales, credit, sale, named.
  destruct (findProduct ps (Order.productId o)) as [p|]; [|reflexivity].
  destruct (String.eqb_spec (ToPropertyKey NumberToString (Product.name p)) key)
    as [->|Hne].
  - destruct (m !! key) as [t|] eqn:E; [|now rewrite E].
    now rewrite lookup_insert_eq.
  - repeat case_match; rewrite ?lookup_insert_ne by exact Hne; reflexivity.
Qed.

Lemma fold_addSales_lookup (key : string) (ps : list Product.t) (os : list Order.t)
    (m : gmap string trend) :
  fold_left (addSales ps) os m !! key = fold_left (credit key ps) os (m !! key).
Proof.
  revert m. induction os as [|o os IH]; intros m; simpl; [reflexivity|].
  now rewrite IH, addSales_lookup.
Qed.

Lemma fold_credit_None (key : string) (ps : list Product.t) (os : list Order.t) :
  fold_left (credit key ps) os None = None.
Proof.
  induction os as [|o os IH]; simpl; [reflexivity|].
  unfold credit at 2. now destruct (sale key ps o).
Qed.

(** C8, where the handler departs from it.  A listing whose name is a
    property name of [Object.prototype] has no entry in the answer of
    [GET /market-trends], whatever its price and whatever was ordered
    against it. *)
Theorem trends_omit_inherited_names (s : state) (key : string) :
  inherited key = true -> marketTrends s !! key = None.
Proof.
  intros Hkey. unfold marketTrends.
  rewrite fold_addSales_lookup, lookup_fmap.
  assert (Hnone : fold_left addPrice (products s) (∅ : gmap string trend) !! key = None).
  { generalize (lookup_empty (A := trend) key).
    generalize (∅ : gmap string trend).
    induction (products s) as [|p ps IH]; intros m Hm; simpl; [exact Hm|].
    apply IH. now apply addPrice_lookup_inherited. }
  rewrite Hnone. simpl. apply fold_credit_None.
Qed.

(** * Further properties of the handlers *)

(** ** Answers and the store *)

(** X1. A run that does not answer 200 leaves the three arrays as they
    were: every handler answers its error before its first write. *)
Theorem failed_request_changes_nothing (s : state) (r : request) (e : env) :
  status (snd (handle s r e)) <> 200%nat -> fst (handle s r e) = s.
Proof.
  intros Hst. destruct (handle s r e) as [s' a] eqn:H. simpl in *.
  destruct (handle_orders _ _ _ _ _ H) as [[Ho _]|Hok]; cycle 1.
  { destruct Hok as (? & ? & ? & ? & ? & _ & _ & _ & _ & _ & _ & _ & ->).
    now destruct Hst. }
  destruct r; unfold_handlers; unfold authMiddleware, getProducts, getProduct in H;
    repeat case_match; simplify_eq; simpl in *; solve [reflexivity | now destruct Hst].
Qed.

(** ** [authMiddleware] *)

Lemma find_hd_filter {A : Type} (f : A -> bool) (l : list A) :
  List.find f l = hd_error (List.filter f l).
Proof.
  induction l as [|x l IH]; simpl; [reflexivity|].
  destruct (f x); [reflexivity|exact IH].
Qed.

Lemma authMiddleware_presented (s : state) (authorization : option string) :
  authMiddleware s authorization
  = match presented_token authorization with
    | None => inl (fail 401 "No token provided")
    | Some t =>
        match hd_error (holders s t) with
        | None => inl (fail 401 "Invalid token")
        | Some u => inr u
        end
    end.
Proof.
  unfold authMiddleware, presented_token, holders.
  destruct authorization as [h|]; [|reflexivity].
  destruct (String.prefix "Bearer " h); simpl; [|reflexivity].
  now rewrite find_hd_filter.
Qed.

(** X2. Who gets a 401.  A protected route answers 401 exactly when the
    header is absent, or does not start with [Bearer ], or presents a token
    that no actor holds; the other routes never answer 401. *)
Theorem unauthenticated_iff (s : state) (r : request) (e : env) :
  status (snd (handle s r e)) = 401%nat
  <-> exists authorization,
        authorization_of r = Some authorization
        /\ match presented_token authorization with
           | None => True
           | Some t => holders s t = []
           end.
Proof.
  assert (Hno : forall next, (forall v, status (snd (next v)) <> 401%nat) ->
                               forall authorization,
                                 status (snd (protected s authorization next)) = 401%nat
                                 <-> match presented_token authorization with
                                     | None => True
                                     | Some t => holders s t = []
                                     end).
  { intros next Hnext authorization. unfold protected.
    rewrite authMiddleware_presented.
    destruct (presented_token authorization) as [t|]; simpl; [|tauto].
    destruct (holders s t) as [|u l]; simpl; [tauto|].
    split; [intros H; now apply Hnext in H|discriminate]. }
  destruct r; simpl;
    try (split; [|intros (? & [=] & _)];
         unfold register, login, getProducts, getProduct;
         repeat case_match; simpl; discriminate).
  - rewrite Hno.
    + split; [intros H; eexists; split; [reflexivity|exact H]|].
      now intros (? & [= <-] & H).
    + intros v. unfold addProduct. repeat case_match; simpl; discriminate.
  - rewrite Hno.
    + split; [intros H; eexists; split; [reflexivity|exact H]|].
      now intros (? & [= <-] & H).
    + intros v. unfold placeOrder. repeat case_match; simpl; discriminate.
  - rewrite Hno.
    + split; [intros H; eexists; split; [reflexivity|exact H]|].
      now intros (? & [= <-] & H).
    + intros v. unfold listOrders. repeat case_match; simpl; discriminate.
Qed.

Lemma prefix_split (p h : string) :
  String.prefix p h = true ->
  h = p ++ String.substring (String.length p) (String.length h - String.length p) h.
Proof.
  revert h. induction p as [|a p IH]; intros h.
  - intros _. cbv [append]. simpl. now rewrite Nat.sub_0_r, substring_all.
  - destruct h as [|b h]; simpl; [discriminate|].
    destruct (ascii_dec a b) as [<-|]; [|discriminate].
    intros H. cbv [append]. fold append. f_equal. now apply IH.
Qed.

(** X3. Whom a token resolves to.  When [authMiddleware] lets a request
    through, the actor it passes on is registered, holds the presented
    token, and is the first holder of that token in the array; a header
    that is a valid token without the [Bearer ] prefix resolves to
    nobody. *)
Theorem resolved_actor_holds_token (s : state) (authorization : option string)
    (u : User.t) :
  authMiddleware s authorization = inr u ->
  exists t, presented_token authorization = Some t
            /\ authorization = bearer t
            /\ User.token u = t /\ In u (users s)
            /\ hd_error (holders s t) = Some u.
Proof.
  intros H. pose proof H as H'. rewrite authMiddleware_presented in H.
  destruct (presented_token authorization) as [t|] eqn:Ht; [|discriminate].
  destruct (hd_error (holders s t)) as [u'|] eqn:Hh; [|discriminate].
  injection H as ->. exists t. split; [reflexivity|].
  assert (Hin : In u (holders s t)).
  { destruct (holders s t); simpl in Hh; [discriminate|]. injection Hh as ->. now left. }
  apply filter_In in Hin as [Hin Htok]. apply String.eqb_eq in Htok.
  repeat split; auto.
  unfold presented_token in Ht. destruct authorization as [h|]; [|discriminate].
  destruct (String.prefix "Bearer " h) eqn:Hp; [|discriminate]. injection Ht as <-.
  unfold bearer. f_equal. now apply (prefix_split "Bearer ").
Qed.

(** ** What a run can do to the store *)

(** The five things a run does to the store: nothing, one registration, one
    token replaced, one listing added, one order added. *)
Lemma handle_cases (s s' : state) (r : request) (e : env) (a : response) :
  handle s r e = (s', a) ->
  s' = s
  \/ (exists name type,
         r = PostRegister name type
         /\ truthy name = true /\ (type = JStr "farmer" \/ type = JStr "buyer")
         /\ List.find (same_name_type name type) (users s) = None
         /\ s' = mkState (users s ++ [User.mk (genId e) name type (genToken e)])
                   (products s) (orders s))
  \/ (exists name type,
         r = PostLogin name type
         /\ s' = mkState (set_token_of_first (same_name_type name type) (genToken e)
                            (users s)) (products s) (orders s))
  \/ (exists user name desc p q,
         In user (users s) /\ User.type user = JStr "farmer"
         /\ truthy name = true /\ 0 < p /\ 0 < q
         /\ s' = mkState (users s)
                   (products s ++ [Product.mk (genId e) (User.id user) name
                                     (js_or desc (JStr "")) p q])
                   (orders s)
         /\ a = json (NewProductJson (Product.mk (genId e) (User.id user) name
                                        (js_or desc (JStr "")) p q)))
  \/ (exists user productId q product,
         In user (users s) /\ User.type user = JStr "buyer"
         /\ findProduct (products s) productId = Some product
         /\ 0 < q
         /\ q <= Product.quantity product - soldQty (orders s) productId
         /\ s' = mkState (users s) (products s)
                   (orders s ++ [Order.mk (genId e) productId (User.id user) q (now e)])).
Proof.
  intros H. destruct (handle_orders _ _ _ _ _ H) as [[Ho _]|Hok]; cycle 1.
  { destruct Hok as (au & pid & q & u & p & _ & Hau & Hty & Hf & Hq & Hle & -> & _).
    do 4 right. exists u, pid, q, p. apply authMiddleware_inr in Hau. tauto. }
  destruct r; unfold_handlers;
    try (left; repeat case_match; simplify_eq; reflexivity).
  - destruct (invalid_credentials name type) eqn:Hv; [left; now simplify_eq|].
    destruct (List.find _ _) eqn:Hf; [left; now simplify_eq|].
    apply invalid_credentials_false in Hv as [Hn Hr]. simplify_eq.
    right. left. exists name, type. auto.
  - destruct (invalid_credentials name type) eqn:Hv; [left; now simplify_eq|].
    destruct (List.find _ _) eqn:Hf; [|left; now simplify_eq].
    simplify_eq. do 2 right. left. exists name, type. auto.
  - destruct (authMiddleware s authorization) as [r0|user] eqn:Hauth;
      [left; now simplify_eq|].
    destruct (negb (strict_eq (User.type user) (JStr "farmer"))) eqn:Hty;
      [left; now simplify_eq|].
    destruct (truthy name) eqn:Hn; [|left; now simplify_eq].
    destruct (positive_number price) as [p|] eqn:Hp; [|left; now simplify_eq].
    destruct (positive_number quantity) as [q|] eqn:Hq; [|left; now simplify_eq].
    apply positive_number_Some in Hp as [-> Hp], Hq as [-> Hq]. simplify_eq.
    apply negb_false_iff, strict_eq_JStr_r in Hty.
    apply authMiddleware_inr in Hauth.
    do 3 right. left. exists user, name, desc, p, q. tauto.
  - left. destruct (authMiddleware s authorization) as [r0|user] eqn:Hauth;
      [now simplify_eq|].
    repeat case_match; simplify_eq; try reflexivity.
    simpl in Ho. apply (f_equal length) in Ho. rewrite length_app in Ho. simpl in Ho. lia.
Qed.

Lemma map_identity_set_token (f : User.t -> bool) (t : string) (l : list User.t) :
  List.map identity (set_token_of_first f t l) = List.map identity l.
Proof.
  induction l as [|u l IH]; simpl; [reflexivity|].
  destruct (f u); simpl; [reflexivity|now rewrite IH].
Qed.

Lemma run_identities (s : state) (l : list (request * env)) :
  exists added,
    List.map identity (users (fst (run s l)))
    = (List.map identity (users s) ++ added)%list.
Proof.
  revert s. induction l as [|[r e] l IH]; intros s; simpl.
  - exists []. now rewrite app_nil_r.
  - destruct (handle s r e) as [s1 a] eqn:H.
    destruct (IH s1) as [added Hadd].
    destruct (run s1 l) as [s2 answers]. simpl in *. rewrite Hadd.
    destruct (handle_cases _ _ _ _ _ H)
      as [->|[(n & t & _ & _ & _ & _ & ->)|[(n & t & _ & ->)
         |[(u & n & d & p & q & _ & _ & _ & _ & _ & -> & _)
          |(u & pid & q & p & _ & _ & _ & _ & _ & ->)]]]]; simpl.
    + now exists added.
    + rewrite map_app, <- app_assoc. eexists. reflexivity.
    + rewrite map_identity_set_token. now exists added.
    + now exists added.
    + now exists added.
Qed.

(** X4. Actors are never removed, reordered or renamed.  After any
    sequence of runs the array of actors starts with the actors it had, in
    the same order and each with the identifier, name and role it had; a
    run can only add actors at the end and replace tokens. *)
Theorem identities_kept (s : state) (l : list (request * env)) :
  exists added,
    List.map identity (users (fst (run s l)))
    = (List.map identity (users s) ++ added)%list.
Proof. exact (run_identities s l). Qed.

(** X5. The catalog is append-only.  After any sequence of runs the
    catalog starts with the listings it had, unchanged and in the same
    order: no handler edits or deletes a listing. *)
Theorem catalog_append_only (s : state) (l : list (request * env)) :
  exists added, products (fst (run s l)) = (products s ++ added)%list.
Proof.
  revert s. induction l as [|[r e] l IH]; intros s; simpl.
  - exists []. now rewrite app_nil_r.
  - destruct (handle s r e) as [s1 a] eqn:H.
    destruct (IH s1) as [added Hadd].
    destruct (run s1 l) as [s2 answers]. simpl in *. rewrite Hadd.
    destruct (handle_cases _ _ _ _ _ H)
      as [->|[(n & t & _ & _ & _ & _ & ->)|[(n & t & _ & ->)
         |[(u & n & d & p & q & _ & _ & _ & _ & _ & -> & _)
          |(u & pid & q & p & _ & _ & _ & _ & _ & ->)]]]]; simpl;
      try (now exists added).
    rewrite <- app_assoc. eexists. reflexivity.
Qed.

(** ** Invariants of the reachable stores *)

Lemma strict_eq_sym (a b : jsval) : strict_eq a b = strict_eq b a.
Proof.
  destruct a, b; simpl; try reflexivity.
  - now destruct b, b0.
  - destruct (Qeq_bool x x0) eqn:E, (Qeq_bool x0 x) eqn:E'; try reflexivity.
    + apply Qeq_bool_iff in E. symmetry in E. apply Qeq_bool_iff in E. congruence.
    + apply Qeq_bool_iff in E'. symmetry in E'. apply Qeq_bool_iff in E'. congruence.
  - apply String.eqb_sym.
Qed.

Lemma strict_eq_trans (a b c : jsval) :
  strict_eq a b = true -> strict_eq b c = true -> strict_eq a c = true.
Proof.
  destruct a, b; simpl; try discriminate; destruct c; simpl; try discriminate; auto.
  - intros H1 H2. apply Bool.eqb_prop in H1, H2. subst. apply Bool.eqb_reflx.
  - intros H1 H2. apply Qeq_bool_iff in H1, H2. apply Qeq_bool_iff.
    now rewrite H1.
  - intros H1 H2. apply String.eqb_eq in H1, H2. subst. apply String.eqb_refl.
Qed.

Lemma same_name_type_identity (name type : jsval) (l1 l2 : list User.t) :
  List.map identity l1 = List.map identity l2 ->
  length (List.filter (same_name_type name type) l1)
  = length (List.filter (same_name_type name type) l2).
Proof.
  revert l2. induction l1 as [|u l1 IH]; intros [|v l2]; simpl; try discriminate;
    [reflexivity|].
  intros [= Hid Hn Ht Hl].
  assert (Huv : same_name_type name type u = same_name_type name type v)
    by (unfold same_name_type; now rewrite Hn, Ht).
  rewrite Huv. destruct (same_name_type name type v); simpl; now rewrite (IH l2 Hl).
Qed.

Lemma distinct_actors_handle (s : state) (r : request) (e : env) :
  distinct_actors s -> distinct_actors (fst (handle s r e)).
Proof.
  intros Hs. destruct (handle s r e) as [s' a] eqn:H. simpl.
  destruct (handle_cases _ _ _ _ _ H)
    as [->|[(n & t & _ & _ & _ & Hnone & ->)|[(n & t & _ & ->)
       |[(u & n & d & p & q & _ & _ & _ & _ & _ & -> & _)
        |(u & pid & q & p & _ & _ & _ & _ & _ & ->)]]]]; try exact Hs.
  - intros name type. simpl. rewrite List.filter_app, length_app. simpl.
    destruct (same_name_type name type (User.mk (genId e) n t (genToken e))) eqn:Hnew;
      simpl; [|specialize (Hs name type); lia].
    destruct (List.filter (same_name_type name type) (users s)) as [|u rest] eqn:Hf;
      [simpl; lia|].
    exfalso. assert (Hin : In u (List.filter (same_name_type name type) (users s)))
      by (rewrite Hf; now left).
    apply filter_In in Hin as [Hin Hu].
    apply (find_none _ _ Hnone) in Hin.
    unfold same_name_type in *. simpl in Hnew.
    apply andb_true_iff in Hnew as [Hn1 Ht1], Hu as [Hn2 Ht2].
    rewrite strict_eq_sym in Hn1, Ht1.
    rewrite (strict_eq_trans _ _ _ Hn2 Hn1), (strict_eq_trans _ _ _ Ht2 Ht1) in Hin.
    discriminate.
  - intros name type. simpl.
    rewrite (same_name_type_identity name type _ (users s)); [apply Hs|].
    apply map_identity_set_token.
Qed.

(** X6. Name and role stay a key.  In a store reached from the empty
    store, at most one actor has a given name and role, whatever the
    registrations and logins that were run. *)
Theorem name_and_role_unique (l : list (request * env)) (name type : jsval) :
  (length (List.filter (same_name_type name type)
                       (users (fst (run init l)))) <= 1)%nat.
Proof.
  assert (H : forall s, distinct_actors s -> distinct_actors (fst (run s l))).
  { induction l as [|[r e] l IH]; intros s Hs; simpl; [exact Hs|].
    pose proof (distinct_actors_handle s r e Hs) as Hs1.
    destruct (handle s r e) as [s1 a]. simpl in *.
    specialize (IH s1 Hs1). destruct (run s1 l) as [s2 answers]. exact IH. }
  apply H. intros n t. simpl. lia.
Qed.

Lemma records_well_handle (s : state) (r : request) (e : env) :
  records_well s -> records_well (fst (handle s r e)).
Proof.
  intros [Hp Ho]. destruct (handle s r e) as [s' a] eqn:H. simpl.
  destruct (handle_cases _ _ _ _ _ H)
    as [->|[(n & t & _ & _ & _ & _ & ->)|[(n & t & _ & ->)
       |[(u & n & d & p & q & Hu & Hty & Hn & Hpr & Hq & -> & _)
        |(u & pid & q & p & Hu & Hty & Hf & Hq & _ & ->)]]]];
    [split; assumption| | | |]; split; simpl.
  - exact Hp.
  - intros o Hin. destruct (Ho o Hin) as (Hq & (b & Hb & Hid & Hty) & Hl).
    repeat split; auto. exists b. split; [apply in_or_app; now left|auto].
  - exact Hp.
  - intros o Hin. destruct (Ho o Hin) as (Hq & (b & Hb & Hid & Hty) & Hl).
    repeat split; auto.
    destruct (set_token_of_first_keeps (same_name_type n t) (genToken e) _ _ Hb)
      as (b' & Hb' & Hid' & _ & Hty').
    exists b'. rewrite Hid', Hty'. auto.
  - intros p' Hin. apply in_app_or in Hin as [Hin|[<-|[]]]; [now apply Hp|].
    simpl. repeat split; auto. unfold js_or.
    destruct (truthy d) eqn:Hd; [left; exact Hd|now right].
  - intros o Hin. destruct (Ho o Hin) as (Hq' & Hb & (p' & Hp' & Hid)).
    repeat split; auto. exists p'. split; [apply in_or_app; now left|exact Hid].
  - exact Hp.
  - intros o Hin. apply in_app_or in Hin as [Hin|[<-|[]]]; [now apply Ho|].
    simpl. apply findProduct_Some in Hf as [Hin ->].
    repeat split; [exact Hq|exists u; auto|exists p; auto].
Qed.

Lemma records_well_run (l : list (request * env)) (s : state) :
  records_well s -> records_well (fst (run s l)).
Proof.
  revert s. induction l as [|[r e] l IH]; intros s Hs; simpl; [exact Hs|].
  pose proof (records_well_handle s r e Hs) as Hs1.
  destruct (handle s r e) as [s1 a]. simpl in *.
  specialize (IH s1 Hs1). destruct (run s1 l) as [s2 answers]. exact IH.
Qed.

Lemma records_well_init : records_well init.
Proof. split; intros ? []. Qed.

(** X7. What is stored is valid.  In a store reached from the empty
    store, every listing has a name that is not empty, a price and a
    quantity greater than zero and a description that is not empty or is
    the empty string; every order has a quantity greater than zero, was
    placed by a registered buyer and is an order against a listing of the
    catalog. *)
Theorem stored_records_valid (l : list (request * env)) :
  let s := fst (run init l) in
  (forall p, In p (products s) ->
     truthy (Product.name p) = true
     /\ 0 < Product.price p /\ 0 < Product.quantity p
     /\ (truthy (Product.desc p) = true \/ Product.desc p = JStr ""))
  /\ (forall o, In o (orders s) ->
        0 < Order.qty o
        /\ (exists buyer, In buyer (users s) /\ User.id buyer = Order.buyerId o
                          /\ User.type buyer = JStr "buyer")
        /\ (exists p, In p (products s) /\ Order.productId o = JStr (Product.id p))).
Proof.
  apply (records_well_run l init records_well_init).
Qed.

(** X8. The last branch of [GET /orders] is dead.  In a store reached
    from the empty store every actor is a farmer or a buyer, so
    [GET /orders] answers 200, or 401 when the token resolves to nobody,
    and never 400 "Unknown user type". *)
Theorem order_history_knows_the_role (l : list (request * env))
    (authorization : option string) (e : env) :
  let a := snd (handle (fst (run init l)) (GetOrders authorization) e) in
  (status a = 200%nat \/ status a = 401%nat)
  /\ a <> fail 400 "Unknown user type".
Proof.
  assert (Hwell : registered_well (fst (run init l)))
    by (apply registered_well_run; intros u []).
  simpl. unfold protected.
  destruct (authMiddleware (fst (run init l)) authorization) as [r|u] eqn:Hauth; simpl.
  - rewrite (authMiddleware_inl _ _ _ Hauth). split; [now right|].
    intros ->. apply authMiddleware_inl in Hauth. discriminate.
  - apply authMiddleware_inr in Hauth. destruct (Hwell u Hauth) as [_ [Hty|Hty]];
      unfold listOrders; rewrite Hty; simpl; split; auto; discriminate.
Qed.

(** ** Orders and availability *)

Lemma accepted_order (s s' : state) (e : env) (authorization : option string)
    (productId qty : jsval) (a : response) :
  handle s (PostOrders authorization productId qty) e = (s', a) ->
  status a = 200%nat ->
  exists q user,
    qty = JNum q
    /\ s' = mkState (users s) (products s)
              (orders s ++ [Order.mk (genId e) productId (User.id user) q (now e)]).
Proof.
  intros H Hst. unfold_handlers. unfold authMiddleware in H.
  repeat case_match; simplify_eq; simpl in Hst; try discriminate.
  all: match goal with
       | Hq : positive_number _ = Some _ |- _ =>
           apply positive_number_Some in Hq as [-> _]
       end; eauto.
Qed.

(** X10. What an accepted order costs.  A [POST /orders] run that answers
    200 lowers what remains of the listing it names by the quantity
    ordered, and leaves what remains of every listing with another
    identifier as it was. *)
Theorem order_effect (s : state) (e : env) (authorization : option string)
    (productId : jsval) (q : Q) (p : Product.t) :
  status (snd (handle s (PostOrders authorization productId (JNum q)) e)) = 200%nat ->
  let s' := fst (handle s (PostOrders authorization productId (JNum q)) e) in
  products s' = products s
  /\ (productId = JStr (Product.id p) -> remaining s' p == remaining s p - q)
  /\ (productId <> JStr (Product.id p) -> remaining s' p == remaining s p).
Proof.
  intros Hst s'. subst s'.
  destruct (handle s (PostOrders authorization productId (JNum q)) e) as [s1 a] eqn:H.
  cbn [fst snd] in *.
  destruct (accepted_order _ _ _ _ _ _ _ H Hst) as (q' & u & [= <-] & ->).
  split; [reflexivity|]. unfold remaining. cbn [orders products].
  split; intros Hp; rewrite committed_app; simpl; unfold references; simpl.
  - subst productId. simpl. rewrite String.eqb_refl. lra.
  - rewrite strict_eq_JStr_r_false by exact Hp. lra.
Qed.

(** ** A new listing *)

Lemma findProduct_app (ps : list Product.t) (p : Product.t) (v : jsval) :
  findProduct (ps ++ [p]) v
  = match findProduct ps v with
    | Some x => Some x
    | None => if strict_eq (JStr (Product.id p)) v then Some p else None
    end.
Proof.
  unfold findProduct. induction ps as [|x ps IH]; cbn [List.find List.app].
  - now destruct (strict_eq (JStr (Product.id p)) v).
  - destruct (strict_eq (JStr (Product.id x)) v); [reflexivity|exact IH].
Qed.

(** X12. A listing can be read back.  In a consistent store, when a farmer
    adds a listing under an identifier not in use, [GET /products/:id] of
    that identifier answers with the new listing and its whole quantity as
    available, the public catalog is the one before with the new listing
    put at the end, and every identifier that resolved to a listing
    resolves to the same listing. *)
Theorem new_listing_read_back (s : state) (e : env) (authorization : option string)
    (farmer : User.t) (name desc : jsval) (price quantity : Q) :
  consistent s ->
  (forall p, In p (products s) -> Product.id p <> genId e) ->
  authMiddleware s authorization = inr farmer ->
  User.type farmer = JStr "farmer" ->
  truthy name = true -> 0 < price -> 0 < quantity ->
  let listing :=
    Product.mk (genId e) (User.id farmer) name (js_or desc (JStr "")) price quantity in
  let s' := fst (handle s (PostProducts authorization name desc (JNum price)
                             (JNum quantity)) e) in
  getProduct s' (genId e)
  = json (ProductJson listing (nameOf (users s) (User.id farmer)) (quantity - 0))
  /\ (exists views,
         getProducts s = json (ProductsJson views)
         /\ getProducts s'
            = json (ProductsJson
                      (views ++ [mkView (genId e) (User.id farmer)
                                   (nameOf (users s) (User.id farmer)) name
                                   (js_or desc (JStr "")) price (quantity - 0)])))
  /\ (forall id p, findProduct (products s) (JStr id) = Some p ->
                   findProduct (products s') (JStr id) = Some p).
Proof.
  intros (Hnd & Href & _) Hfresh Hauth Hty Hname Hprice Hquantity listing s'.
  assert (Hs' : s' = mkState (users s) (products s ++ [listing]) (orders s)).
  { subst s'. unfold handle, protected, addProduct. rewrite Hauth, Hty, Hname.
    assert (Hp : positive_number (JNum price) = Some price)
      by (apply positive_number_Some; auto).
    assert (Hq : positive_number (JNum quantity) = Some quantity)
      by (apply positive_number_Some; auto).
    rewrite Hp, Hq. reflexivity. }
  assert (Hnone : findProduct (products s) (JStr (genId e)) = None).
  { apply findProduct_None. intros p Hin [= Heq]. now apply (Hfresh p Hin). }
  assert (Hsold : soldQty (orders s) (JStr (genId e)) = 0).
  { unfold soldQty. rewrite filter_unreferenced; [reflexivity|].
    intros o Ho Heq. destruct (Href o Ho) as (p & Hin & Hp).
    rewrite Hp in Heq. injection Heq as Heq. now apply (Hfresh p Hin). }
  rewrite Hs'. repeat split.
  - unfold getProduct. cbn [products users orders].
    rewrite findProduct_app, Hnone. cbn [Product.id listing strict_eq].
    rewrite String.eqb_refl. cbn [Product.id Product.quantity Product.farmerId listing].
    now rewrite Hsold.
  - eexists. split; [reflexivity|]. unfold getProducts. cbn [products users orders].
    rewrite map_app, List.filter_app. cbn [List.map List.filter v_quantityAvailable].
    cbn [Product.id Product.quantity Product.farmerId Product.name Product.desc
         Product.price listing].
    rewrite Hsold.
    assert (Hshown : Qle_bool (quantity - 0) 0 = false).
    { destruct (Qle_bool (quantity - 0) 0) eqn:E; [|reflexivity].
      apply Qle_bool_iff in E. lra. }
    rewrite Hshown. reflexivity.
  - intros id p Hfind. cbn [products]. now rewrite findProduct_app, Hfind.
Qed.

(** ** Login *)

Lemma find_token_set_token (f : User.t -> bool) (new t : string) (l : list User.t)
    (actor : User.t) :
  List.find f l = Some actor -> User.token actor <> t -> new <> t ->
  List.find (fun u => String.eqb (User.token u) t) (set_token_of_first f new l)
  = List.find (fun u => String.eqb (User.token u) t) l.
Proof.
  intros Hfind Hold Hnew. apply String.eqb_neq in Hnew.
  induction l as [|u l IH]; simpl in *; [reflexivity|].
  destruct (f u) eqn:Hf.
  - injection Hfind as ->. simpl. apply String.eqb_neq in Hold. now rewrite Hnew, Hold.
  - simpl. destruct (String.eqb (User.token u) t); [reflexivity|now apply IH].
Qed.

(** X13. A login ends one session only.  When an actor logs in, a token
    that resolved to some actor before, is not the token of the actor
    logging in and is not the token drawn, resolves to the same actor
    after. *)
Theorem login_keeps_other_sessions (s : state) (e : env) (name type : jsval)
    (actor u : User.t) (t : string) :
  List.find (same_name_type name type) (users s) = Some actor ->
  authMiddleware s (bearer t) = inr u ->
  User.token actor <> t -> genToken e <> t ->
  authMiddleware (fst (handle s (PostLogin name type) e)) (bearer t) = inr u.
Proof.
  intros Hfind Hauth Hold Hnew. cbn [handle]. unfold login. rewrite Hfind.
  destruct (invalid_credentials name type); [exact Hauth|]. cbn [fst].
  rewrite authMiddleware_bearer in *. cbn [users].
  now rewrite (find_token_set_token _ _ _ _ actor Hfind Hold Hnew).
Qed.

Lemma find_after_registration (name type : jsval) (new : User.t)
    (l0 l : list User.t) (added : list (string * jsval * jsval)) :
  List.find (same_name_type name type) l0 = None ->
  same_name_type name type new = true ->
  List.map identity l = (List.map identity l0 ++ identity new :: added)%list ->
  exists u, List.find (same_name_type name type) l = Some u
            /\ identity u = identity new.
Proof.
  intros Hnone Hnew. revert l. induction l0 as [|x l0 IH]; intros [|y l]; simpl;
    try discriminate.
  - intros [= Hid Hn Ht _]. exists y. unfold same_name_type in *.
    rewrite Hn, Ht, Hnew. split; [reflexivity|]. unfold identity. congruence.
  - intros [= Hid Hn Ht Hl]. simpl in Hnone.
    destruct (same_name_type name type x) eqn:Hx; [discriminate|].
    assert (Hy : same_name_type name type y = false)
      by (unfold same_name_type in *; now rewrite Hn, Ht).
    rewrite Hy. now apply IH.
Qed.

(** X14. Register, then log in.  After a registration that answers 200
    under a name that is a string, a number or a boolean, a login with the
    same name and role answers 200 with the identifier the registration
    answered with, in the resulting store and in every later one. *)
Theorem register_then_login (s : state) (e e' : env) (name type : jsval)
    (l : list (request * env)) :
  status (snd (handle s (PostRegister name type) e)) = 200%nat ->
  strict_eq name name = true ->
  let s1 := fst (handle s (PostRegister name type) e) in
  snd (handle (fst (run s1 l)) (PostLogin name type) e')
  = json (UserJson (genId e) name type (genToken e')).
Proof.
  intros Hok Hname s1. subst s1. cbn [handle] in *. unfold register in *.
  destruct (invalid_credentials name type) eqn:Hv; [discriminate|].
  destruct (List.find (same_name_type name type) (users s)) eqn:Hnone; [discriminate|].
  cbn [fst].
  pose proof Hv as Hv'. apply invalid_credentials_false in Hv' as [Hn Hr].
  destruct (run_identities
              (mkState (users s ++ [User.mk (genId e) name type (genToken e)])
                       (products s) (orders s)) l) as [added Hadd].
  cbn [users] in Hadd. rewrite map_app, <- app_assoc in Hadd. simpl in Hadd.
  assert (Hnew : same_name_type name type (User.mk (genId e) name type (genToken e))
                 = true).
  { unfold same_name_type. simpl. rewrite Hname.
    destruct Hr as [-> | ->]; reflexivity. }
  destruct (find_after_registration name type _ _ _ _ Hnone Hnew Hadd)
    as (u & Hfind & [= Hid Hnm Hty]).
  unfold login. rewrite Hv, Hfind. simpl. now rewrite Hid, Hnm, Hty.
Qed.

(** X15. A name that is an array or an object.  Such a name is identical
    to no stored name: a registration under it with one of the two roles
    answers 200 however often it is repeated, and a login under it answers
    400 "User not found, please register" and leaves the store as it is. *)
Theorem array_name_registers_never_logs_in (s : state) (e : env) (k : string)
    (type : jsval) :
  type = JStr "farmer" \/ type = JStr "buyer" ->
  handle s (PostRegister (JObj k) type) e
  = (mkState (users s ++ [User.mk (genId e) (JObj k) type (genToken e)])
             (products s) (orders s),
     json (UserJson (genId e) (JObj k) type (genToken e)))
  /\ handle s (PostLogin (JObj k) type) e
     = (s, fail 400 "User not found, please register").
Proof.
  intros Hr.
  assert (Hnone : List.find (same_name_type (JObj k) type) (users s) = None).
  { induction (users s) as [|u l IH]; simpl; [reflexivity|].
    unfold same_name_type at 1. now destruct (User.name u). }
  assert (Hv : invalid_credentials (JObj k) type = false)
    by (apply invalid_credentials_false; auto).
  cbn [handle]. unfold register, login. now rewrite Hv, Hnone.
Qed.

(** ** Order histories *)

Lemma findProduct_found (ps : list Product.t) (p : Product.t) :
  In p ps ->
  exists p', findProduct ps (JStr (Product.id p)) = Some p'
             /\ In p' ps /\ Product.id p' = Product.id p.
Proof.
  intros Hin. destruct (findProduct ps (JStr (Product.id p))) as [p'|] eqn:Hf.
  - exists p'. apply findProduct_Some in Hf as [Hin' [= Hid]]. auto.
  - unfold findProduct in Hf. apply (find_none _ _ Hf) in Hin.
    simpl in Hin. now rewrite String.eqb_refl in Hin.
Qed.


(** X16. A buyer's history.  In a store reached from the empty store,
    [GET /orders] answers a buyer with their own orders, all of them and in
    ledger order, each with the name and the owner of a listing of the
    catalog that has the identifier the order names: the "Unknown" name and
    the null owner never show. *)
Theorem buyer_history (l : list (request * env)) (authorization : option string)
    (e : env) (buyer : User.t) :
  let s := fst (run init l) in
  authMiddleware s authorization = inr buyer ->
  User.type buyer = JStr "buyer" ->
  exists rows,
    handle s (GetOrders authorization) e = (s, json (BuyerOrdersJson rows))
    /\ List.map (fun row => fst (fst row)) rows
       = List.filter (fun o => String.eqb (Order.buyerId o) (User.id buyer)) (orders s)
    /\ Forall (fun row =>
                 exists p, In p (products s)
                           /\ Order.productId (fst (fst row)) = JStr (Product.id p)
                           /\ snd (fst row) = Product.name p
                           /\ snd row = Some (Product.farmerId p)) rows.
Proof.
  intros s Hauth Hty.
  destruct (records_well_run l init records_well_init) as [_ Hord]. fold s in Hord.
  cbn [handle]. unfold protected, listOrders. rewrite Hauth, Hty.
  change (strict_eq (JStr "buyer") (JStr "buyer")) with true.
  cbv iota. eexists. split; [reflexivity|]. split.
  - rewrite map_map. cbn [fst]. apply map_id.
  - apply List.Forall_forall. intros row Hrow. apply in_map_iff in Hrow as (o & <- & Ho).
    apply filter_In in Ho as [Ho _].
    destruct (Hord o Ho) as (_ & _ & p & Hp & Hid).
    destruct (findProduct_found _ _ Hp) as (p' & Hf & Hp' & Hid').
    rewrite Hid, Hf. cbn [fst snd]. exists p'. repeat split; auto. congruence.
Qed.


(** ** Identifiers and tokens *)

Lemma length_app_string (s1 s2 : string) :
  String.length (s1 ++ s2) = (String.length s1 + String.length s2)%nat.
Proof.
  induction s1 as [|c s1 IH]; cbv [append]; fold append; simpl; [reflexivity|].
  now rewrite IH.
Qed.

Lemma to_hex_length (digits : nat) (n : N) : String.length (to_hex digits n) = digits.
Proof.
  revert n. induction digits as [|d IH]; intros n; simpl; [reflexivity|].
  rewrite length_app_string, IH. simpl. lia.
Qed.

Lemma append_last_inj (s1 s2 : string) (a b : ascii) :
  s1 ++ String a "" = s2 ++ String b "" -> s1 = s2 /\ a = b.
Proof.
  revert s2. induction s1 as [|c s1 IH]; intros [|c2 s2]; cbv [append]; fold append.
  - now intros [= ->].
  - intros [= -> H]. destruct s2; discriminate.
  - intros [= -> H]. destruct s1; discriminate.
  - intros [= -> H]. destruct (IH s2 H) as [-> ->]. auto.
Qed.

Lemma below_16 (x : N) :
  (x < 16)%N -> In x (List.map N.of_nat (seq 0 16)).
Proof.
  intros Hx. rewrite <- (N2Nat.id x). apply in_map, in_seq. lia.
Qed.

Lemma hex_digit_inj (x y : N) :
  (x < 16)%N -> (y < 16)%N -> hex_digit x = hex_digit y -> x = y.
Proof.
  intros Hx Hy H. apply below_16 in Hx, Hy.
  assert (Htable : forallb (fun a =>
                      forallb (fun b =>
                         implb (Ascii.eqb (hex_digit a) (hex_digit b)) (N.eqb a b))
                        (List.map N.of_nat (seq 0 16)))
                     (List.map N.of_nat (seq 0 16)) = true) by (vm_compute; reflexivity).
  rewrite forallb_forall in Htable. specialize (Htable x Hx).
  rewrite forallb_forall in Htable. specialize (Htable y Hy).
  rewrite H, Ascii.eqb_refl in Htable. now apply N.eqb_eq.
Qed.

Lemma hex_split (k n : N) :
  ((n mod (16 * k)) / 16 = (n / 16) mod k
   /\ (n mod (16 * k)) mod 16 = n mod 16)%N.
Proof.
  rewrite N.Div0.mod_mul_r. split.
  - rewrite N.add_comm, N.mul_comm, N.div_add_l by discriminate.
    rewrite (N.div_small (n mod 16) 16) by (apply N.mod_lt; discriminate). lia.
  - rewrite N.mul_comm, N.Div0.mod_add. apply N.Div0.mod_mod.
Qed.

Lemma to_hex_mod (digits : nat) (n : N) :
  to_hex digits n = to_hex digits (n mod 16 ^ N.of_nat digits).
Proof.
  revert n. induction digits as [|d IH]; intros n; [reflexivity|].
  rewrite Nat2N.inj_succ, N.pow_succ_r'. cbn [to_hex].
  destruct (hex_split (16 ^ N.of_nat d) n) as [Hd Hm].
  rewrite Hd, Hm. now rewrite <- (IH (n / 16)%N).
Qed.

Lemma to_hex_inj (digits : nat) (n m : N) :
  to_hex digits n = to_hex digits m ->
  (n mod 16 ^ N.of_nat digits = m mod 16 ^ N.of_nat digits)%N.
Proof.
  revert n m. induction digits as [|d IH]; intros n m.
  - intros _. simpl. now rewrite !N.mod_1_r.
  - cbn [to_hex]. intros H. apply append_last_inj in H as [Hhi Hlo].
    apply IH in Hhi.
    apply hex_digit_inj in Hlo; try (apply N.mod_lt; discriminate).
    rewrite Nat2N.inj_succ, N.pow_succ_r', !N.Div0.mod_mul_r. congruence.
Qed.

Lemma to_hex_digits (digits : nat) (n : N) (c : ascii) :
  In c (list_ascii_of_string (to_hex digits n)) ->
  In c (list_ascii_of_string "0123456789abcdef").
Proof.
  revert n. induction digits as [|d IH]; intros n; cbn [to_hex]; [intros []|].
  assert (Happ : forall s1 s2, list_ascii_of_string (s1 ++ s2)
                               = (list_ascii_of_string s1 ++ list_ascii_of_string s2)%list).
  { induction s1 as [|x s1 IH1]; intros s2; cbv [append]; fold append; simpl;
      [reflexivity|now rewrite IH1]. }
  rewrite Happ. intros Hin. apply in_app_or in Hin as [Hin|[<-|[]]]; [now apply (IH _ Hin)|].
  assert (Hlt : (n mod 16 < 16)%N) by (apply N.mod_lt; discriminate).
  apply below_16 in Hlt. simpl in Hlt.
  repeat (destruct Hlt as [<-|Hlt]; [vm_compute; tauto|]). contradiction.
Qed.

(** X20. The shape of identifiers and tokens.  [genId] gives 16 and
    [genToken] 32 characters, each a digit or a letter from a to f, so that
    an identifier is never an empty string; and two draws give the same
    identifier exactly when the 8 random bytes are the same, the same
    token exactly when the 16 random bytes are the same. *)
Theorem identifiers_and_tokens (e1 e2 : env) :
  String.length (genId e1) = 16%nat
  /\ String.length (genToken e1) = 32%nat
  /\ truthy (JStr (genId e1)) = true
  /\ (forall c, In c (list_ascii_of_string (genId e1))
                \/ In c (list_ascii_of_string (genToken e1)) ->
                In c (list_ascii_of_string "0123456789abcdef"))
  /\ (genId e1 = genId e2 <-> (random8 e1 mod 2 ^ 64 = random8 e2 mod 2 ^ 64)%N)
  /\ (genToken e1 = genToken e2
      <-> (random16 e1 mod 2 ^ 128 = random16 e2 mod 2 ^ 128)%N).
Proof.
  with_strategy transparent [genId genToken] unfold genId, genToken.
  assert (Hlen : String.length (to_hex 16 (random8 e1)) = 16%nat) by apply to_hex_length.
  split; [exact Hlen|]. split; [apply to_hex_length|].
  split; [apply truthy_JStr; intros H; rewrite H in Hlen; discriminate|].
  split; [intros c [H|H]; eapply to_hex_digits; exact H|].
  split; split.
  - apply (to_hex_inj 16).
  - intros H. rewrite (to_hex_mod 16 (random8 e1)), (to_hex_mod 16 (random8 e2)).
    change (16 ^ N.of_nat 16)%N with (2 ^ 64)%N. now rewrite H.
  - apply (to_hex_inj 32).
  - intros H. rewrite (to_hex_mod 32 (random16 e1)), (to_hex_mod 32 (random16 e2)).
    change (16 ^ N.of_nat 32)%N with (2 ^ 128)%N. now rewrite H.
Qed.

End Properties.

(** * The scenarios, evaluated *)

(** The end-to-end scenario of the specification: the first order of 3
    succeeds, the second order of 3 is refused with 3 requested and 2
    available, the order of 2 succeeds. *)
Lemma end_to_end_answers :
  List.map status (snd (run showNumber init end_to_end))
  = [200; 200; 200; 200; 200; 400; 200]%nat
  /\ nth_error (snd (run showNumber init end_to_end)) 5
     = Some (fail 400 "Quantity requested (3) exceeds available quantity (2)")
  /\ remaining (fst (run showNumber init end_to_end)) carrots == 0.
Proof. repeat split; vm_compute; reflexivity. Qed.


(** The store [shop], spelled out. *)
Lemma shop_contents :
  users shop = [alice; bob] /\ products shop = [tomatoes] /\ orders shop = []
  /\ authMiddleware shop (session 1) = inr alice
  /\ authMiddleware shop (session 3) = inr bob.
Proof. repeat split; vm_compute; reflexivity. Qed.

(** C3, as stated, at [shop].  With a quantity of 0 against an identifier
    of no listing the claim has the run answer 404, the listing being
    looked up before the quantity: the run answers 400 "Invalid order
    data".  With a quantity of 1/2, which is no positive integer, against
    the tomatoes the claim has the run answer 400 and add nothing: the run
    answers 200 and puts a record of quantity 1/2 in the ledger. *)
Lemma placeOrder_checks_counterexample :
  authMiddleware shop (session 3) = inr bob
  /\ User.type bob = JStr "buyer"
  /\ findProduct (products shop) (JStr "no-such-listing") = None
  /\ handle showNumber shop (PostOrders (session 3) (JStr "no-such-listing") (JNum 0))
       (draw 4)
     = (shop, fail 400 "Invalid order data")
  /\ ~ positive_integer (JNum (1 # 2))
  /\ findProduct (products shop) (JStr (genId (draw 2))) = Some tomatoes
  /\ status (snd (handle showNumber shop
                    (PostOrders (session 3) (JStr (genId (draw 2))) (JNum (1 # 2)))
                    (draw 4))) = 200%nat
  /\ List.map Order.qty
       (orders (fst (handle showNumber shop
                       (PostOrders (session 3) (JStr (genId (draw 2))) (JNum (1 # 2)))
                       (draw 4)))) = [1 # 2].
Proof.
  repeat split; try (vm_compute; reflexivity).
  intros (x & z & [= <-] & Hx & _).
  unfold Qeq, inject_Z in Hx. simpl in Hx. lia.
Qed.

(** C3 as the handler has it, at [shop]: a farmer is refused, a buyer's
    quantity of 0 is invalid, a buyer's unknown listing is not found. *)
Lemma placeOrder_precondition_failures_witness :
  handle showNumber shop (PostOrders (session 1) (JStr (genId (draw 2))) (JNum 1)) (draw 4)
  = (shop, fail 403 "Only buyers can place orders")
  /\ handle showNumber shop (PostOrders (session 3) (JStr "no-such-listing") (JNum 0))
       (draw 4)
     = (shop, fail 400 "Invalid order data")
  /\ handle showNumber shop (PostOrders (session 3) (JStr "no-such-listing") (JNum 1))
       (draw 4)
     = (shop, fail 404 "Product not found").
Proof.
  assert (Ha : authMiddleware shop (session 1) = inr alice) by (vm_compute; reflexivity).
  assert (Hb : authMiddleware shop (session 3) = inr bob) by (vm_compute; reflexivity).
  split; [|split].
  - apply (placeOrder_precondition_failures showNumber _ (draw 4) _
             (JStr (genId (draw 2))) (JNum 1) _ Ha).
    discriminate.
  - apply (placeOrder_precondition_failures showNumber _ (draw 4) _
             (JStr "no-such-listing") (JNum 0) _ Hb); [reflexivity|].
    right. intros (x & [= <-] & Hx). discriminate.
  - apply (placeOrder_precondition_failures showNumber _ (draw 4) _
             (JStr "no-such-listing") (JNum 1) _ Hb); [reflexivity|reflexivity| |].
    + exists 1. split; reflexivity.
    + intros p [<-|[]]. vm_compute. discriminate.
Defined.

(** C5 at [shop]: Bob logs in again; his earlier token is then refused on
    each protected route. *)
Lemma token_rotation_witness :
  let s' := fst (handle showNumber shop (PostLogin (JStr "Bob") (JStr "buyer")) (draw 4)) in
  snd (handle showNumber shop (PostLogin (JStr "Bob") (JStr "buyer")) (draw 4))
  = json (UserJson (User.id bob) (JStr "Bob") (JStr "buyer") (genToken (draw 4)))
  /\ holders s' (User.token bob) = []
  /\ handle showNumber s' (PostOrders (session 3) (JStr (genId (draw 2))) (JNum 1)) (draw 5)
     = (s', fail 401 "Invalid token")
  /\ handle showNumber s' (GetOrders (session 3)) (draw 5) = (s', fail 401 "Invalid token").
Proof.
  intros s'.
  assert (Hok : status (snd (handle showNumber shop
                               (PostLogin (JStr "Bob") (JStr "buyer")) (draw 4))) = 200%nat)
    by reflexivity.
  assert (Hfind : List.find (same_name_type (JStr "Bob") (JStr "buyer")) (users shop)
                  = Some bob) by (vm_compute; reflexivity).
  assert (Hone : holders shop (User.token bob) = [bob]) by (vm_compute; reflexivity).
  assert (Hnew : genToken (draw 4) <> User.token bob) by (vm_compute; discriminate).
  destruct (token_rotation showNumber shop (draw 4) (JStr "Bob") (JStr "buyer") bob
              Hok Hfind Hone Hnew) as (Hanswer & _ & Hnone & Hstale).
  split; [exact Hanswer|]. split; [exact Hnone|]. split.
  - apply (Hstale [] _ (draw 5)); [intros ? ? []|reflexivity].
  - apply (Hstale [] _ (draw 5)); [intros ? ? []|reflexivity].
Defined.


(** C10 at [shop]: the token Bob got at registration resolves to Bob, and
    his order is placed in his name. *)
Lemma token_resolves_witness :
  holders shop (genToken (draw 3)) = [bob]
  /\ authMiddleware shop (session 3) = inr bob
  /\ handle showNumber shop (PostOrders (session 3) (JStr (genId (draw 2))) (JNum 1)) (draw 4)
     = placeOrder showNumber shop (draw 4) (JStr (genId (draw 2))) (JNum 1) bob
  /\ holders (fst (handle showNumber shop (PostRegister (JStr "Carol") (JStr "buyer"))
                     (draw 4))) (genToken (draw 4))
     = [User.mk (genId (draw 4)) (JStr "Carol") (JStr "buyer") (genToken (draw 4))].
Proof.
  assert (Hone : holders shop (genToken (draw 3)) = [bob]) by (vm_compute; reflexivity).
  destruct (proj1 (token_resolves showNumber) shop (genToken (draw 3)) bob Hone)
    as (Hauth & _ & Horder & _).
  assert (Hdrawn : token_drawn (PostRegister (JStr "Carol") (JStr "buyer")) (draw 4)
                   = Some (genToken (draw 4))) by reflexivity.
  assert (Hanswer : snd (handle showNumber shop
                           (PostRegister (JStr "Carol") (JStr "buyer")) (draw 4))
                    = json (UserJson (genId (draw 4)) (JStr "Carol") (JStr "buyer")
                              (genToken (draw 4)))) by (vm_compute; reflexivity).
  assert (Hfree : holders shop (genToken (draw 4)) = []) by (vm_compute; reflexivity).
  destruct (proj2 (token_resolves showNumber) shop (draw 4)
              (PostRegister (JStr "Carol") (JStr "buyer"))
              (genId (draw 4)) (JStr "Carol") (JStr "buyer") (genToken (draw 4))
              Hdrawn Hanswer Hfree) as (_ & Hnew).
  exact (conj Hone (conj Hauth (conj (Horder _ _ _) Hnew))).
Defined.

(** C8 at [tomato_market], where one listing is named "constructor", is
    priced 2 and has an order of 1 against it: the answer has no entry of
    that name. *)
Lemma trends_omit_inherited_names_witness :
  named showNumber "constructor"
    (Product.mk (genId (draw 5)) (genId (draw 1)) (JStr "constructor") (JStr "") 2 10)
  = true
  /\ In (Product.mk (genId (draw 5)) (genId (draw 1)) (JStr "constructor") (JStr "") 2 10)
        (products tomato_market)
  /\ ordered showNumber "constructor" (products tomato_market) (orders tomato_market) = [1]
  /\ marketTrends showNumber tomato_market !! "constructor" = None.
Proof.
  split; [reflexivity|]. split; [|split].
  - vm_compute. right. right. left. reflexivity.
  - vm_compute. reflexivity.
  - apply (trends_omit_inherited_names showNumber tomato_market "constructor").
    reflexivity.
Defined.

(** * The further properties, evaluated *)

Lemma shop_reached : shop = fst (run showNumber init shop_runs).
Proof. reflexivity. Qed.

Lemma shop_fresh : fresh_run showNumber init shop_runs.
Proof. vm_compute. repeat split. intros p []. Qed.

(** X1 at [shop]: Bob's order of 11 of the 10 tomatoes. *)
Lemma failed_request_witness :
  status (snd (handle showNumber shop
                 (PostOrders (session 3) (JStr (genId (draw 2))) (JNum 11)) (draw 4)))
  = 400%nat
  /\ fst (handle showNumber shop
            (PostOrders (session 3) (JStr (genId (draw 2))) (JNum 11)) (draw 4))
     = shop.
Proof.
  split; [reflexivity|].
  apply (failed_request_changes_nothing showNumber). vm_compute. discriminate.
Defined.

(** X3 at [shop]: Bob's session. *)
Lemma resolved_actor_witness :
  exists t, presented_token (session 3) = Some t
            /\ session 3 = bearer t
            /\ User.token bob = t /\ In bob (users shop)
            /\ hd_error (holders shop t) = Some bob.
Proof.
  apply (resolved_actor_holds_token shop (session 3) bob). vm_compute. reflexivity.
Defined.

(** X10 at [shop]: Bob's order of 4 tomatoes. *)
Lemma order_effect_witness :
  remaining (fst (handle showNumber shop
                    (PostOrders (session 3) (JStr (genId (draw 2))) (JNum 4)) (draw 4)))
            tomatoes
  == remaining shop tomatoes - 4.
Proof.
  apply (order_effect showNumber shop (draw 4) (session 3) (JStr (genId (draw 2))) 4
           tomatoes); reflexivity.
Defined.

(** X12 at [shop]: Alice adds leeks and reads them back. *)
Lemma new_listing_witness :
  getProduct (fst (handle showNumber shop
                     (PostProducts (session 1) (JStr "Leek") JUndefined (JNum 1) (JNum 3))
                     (draw 4))) (genId (draw 4))
  = json (ProductJson
            (Product.mk (genId (draw 4)) (User.id alice) (JStr "Leek") (JStr "") 1 3)
            (JStr "Alice") (3 - 0)).
Proof.
  assert (Hc : consistent shop)
    by (apply (consistent_run showNumber shop_runs init consistent_init shop_fresh)).
  assert (Hfresh : forall p, In p (products shop) -> Product.id p <> genId (draw 4)).
  { intros p [<-|[]]. vm_compute. discriminate. }
  assert (Hauth : authMiddleware shop (session 1) = inr alice) by (vm_compute; reflexivity).
  apply (new_listing_read_back showNumber shop (draw 4) (session 1) alice (JStr "Leek")
           JUndefined 1 3 Hc Hfresh Hauth eq_refl eq_refl eq_refl eq_refl).
Defined.

(** X13 at [shop]: Bob logs in again; Alice's session still resolves to
    Alice. *)
Lemma login_keeps_other_sessions_witness :
  authMiddleware (fst (handle showNumber shop (PostLogin (JStr "Bob") (JStr "buyer"))
                         (draw 4))) (bearer (genToken (draw 1)))
  = inr alice.
Proof.
  apply (login_keeps_other_sessions showNumber shop (draw 4) (JStr "Bob") (JStr "buyer")
           bob alice (genToken (draw 1))).
  - vm_compute. reflexivity.
  - vm_compute. reflexivity.
  - vm_compute. discriminate.
  - vm_compute. discriminate.
Defined.

(** X14 at [shop]: Carol registers, Bob orders, Carol logs in. *)
Lemma register_then_login_witness :
  snd (handle showNumber
         (fst (run showNumber
                 (fst (handle showNumber shop (PostRegister (JStr "Carol") (JStr "buyer"))
                         (draw 4)))
                 [(PostOrders (session 3) (JStr (genId (draw 2))) (JNum 1), draw 5)]))
         (PostLogin (JStr "Carol") (JStr "buyer")) (draw 6))
  = json (UserJson (genId (draw 4)) (JStr "Carol") (JStr "buyer") (genToken (draw 6))).
Proof.
  apply (register_then_login showNumber shop (draw 4) (draw 6) (JStr "Carol")
           (JStr "buyer")); reflexivity.
Defined.

(** X15 at [shop]: the name ["Alice"], an array. *)
Lemma array_name_witness :
  handle showNumber shop (PostRegister (JObj "Alice") (JStr "farmer")) (draw 4)
  = (mkState (users shop ++ [User.mk (genId (draw 4)) (JObj "Alice") (JStr "farmer")
                               (genToken (draw 4))]) (products shop) (orders shop),
     json (UserJson (genId (draw 4)) (JObj "Alice") (JStr "farmer") (genToken (draw 4))))
  /\ handle showNumber shop (PostLogin (JObj "Alice") (JStr "farmer")) (draw 4)
     = (shop, fail 400 "User not found, please register").
Proof.
  apply (array_name_registers_never_logs_in showNumber shop (draw 4) "Alice"
           (JStr "farmer")).
  now left.
Defined.

(** X16 at the end-to-end scenario: the first consumer's history is their
    one order. *)
Lemma buyer_history_witness :
  exists rows,
    handle showNumber (fst (run showNumber init end_to_end)) (GetOrders (session 3)) (draw 8)
    = (fst (run showNumber init end_to_end), json (BuyerOrdersJson rows))
    /\ List.map (fun row => fst (fst row)) rows
       = List.filter (fun o => String.eqb (Order.buyerId o) (User.id consumer))
                     (orders (fst (run showNumber init end_to_end)))
    /\ Forall (fun row =>
                 exists p, In p (products (fst (run showNumber init end_to_end)))
                           /\ Order.productId (fst (fst row)) = JStr (Product.id p)
                           /\ snd (fst row) = Product.name p
                           /\ snd row = Some (Product.farmerId p)) rows.
Proof.
  apply (buyer_history showNumber end_to_end (session 3) (draw 8) consumer).
  - vm_compute. reflexivity.
  - reflexivity.
Defined.


(** * Properties of the server in binary64 *)

Section Binary64Properties.

Import Binary64.

Variable NumberToString : float -> string.

Local Abbreviation handle := (Binary64.handle NumberToString).
Local Abbreviation run := (Binary64.run NumberToString).
Local Abbreviation placeOrder := (Binary64.placeOrder NumberToString).

(** ** The ledger sum *)

Lemma run_app (s : state) (l1 l2 : list (request * env)) :
  run s (l1 ++ l2)
  = (fst (run (fst (run s l1)) l2), (snd (run s l1) ++ snd (run (fst (run s l1)) l2))%list).
Proof.
  revert s. induction l1 as [|[r e] l1 IH]; intros s; simpl.
  - now destruct (run s l2).
  - destruct (handle s r e) as [s1 a]. rewrite IH.
    destruct (run s1 l1) as [s2 answers]. reflexivity.
Qed.

(** Adding one to 2^53 gives 2^53: the sum of the first order and any
    number of orders of one unit, as the handlers compute it, is 2^53. *)
Lemma soldQty_reached (s : state) (n : nat) :
  Grain.reached s n -> soldQty (orders s) (JStr Grain.id) = 9007199254740992%float.
Proof.
  intros (_ & _ & ones & -> & Hones & _). unfold soldQty.
  cbn [List.filter]. change (strict_eq (Order.productId Grain.bulk) (JStr Grain.id))
    with (String.eqb Grain.id Grain.id). rewrite String.eqb_refl.
  cbn [fold_left]. change (PrimFloat.add 0 (Order.qty Grain.bulk))
    with 9007199254740992%float.
  induction Hones as [|o ones [Hid Hqty] _ IH]; [reflexivity|].
  cbn [List.filter]. rewrite Hid. cbn [strict_eq]. rewrite String.eqb_refl.
  cbn [fold_left]. rewrite Hqty.
  change (PrimFloat.add 9007199254740992 1) with 9007199254740992%float. exact IH.
Qed.

Lemma committed_reached (s : state) (n : nat) :
  Grain.reached s n ->
  committed (orders s) Grain.id == 9007199254740992 + inject_Z (Z.of_nat n).
Proof.
  intros (_ & _ & ones & -> & Hones & <-). cbn [committed].
  change (references Grain.id Grain.bulk) with (String.eqb Grain.id Grain.id).
  rewrite String.eqb_refl.
  assert (Hbulk : exact (Order.qty Grain.bulk) == 9007199254740992)
    by (vm_compute; reflexivity).
  rewrite Hbulk. apply Qplus_inj_l.
  induction Hones as [|o ones [Hid Hqty] _ IH]; [reflexivity|].
  cbn [committed length]. unfold references. rewrite Hid. cbn [strict_eq].
  rewrite String.eqb_refl, Hqty.
  assert (Hone : exact 1 == 1) by (vm_compute; reflexivity).
  rewrite Nat2Z.inj_succ. unfold Z.succ. rewrite inject_Z_plus.
  change (inject_Z 1) with 1. lra.
Qed.

(** In each of these stores a further order of one unit is accepted. *)
Lemma unit_accepted (s : state) (n : nat) (e : env) :
  Grain.reached s n ->
  status (snd (handle s (PostOrders (session 3) (JStr Grain.id) (JNum 1%float)) e))
  = 200%nat
  /\ Grain.reached (fst (handle s (PostOrders (session 3) (JStr Grain.id)
                                     (JNum 1%float)) e)) (S n).
Proof.
  intros Hs. pose proof (soldQty_reached s n Hs) as Hsold.
  destruct Hs as (Hu & Hp & ones & Ho & Hones & Hn).
  assert (Hauth : authMiddleware s (session 3) = inr Grain.buyer).
  { unfold authMiddleware. rewrite Hu. vm_compute. reflexivity. }
  assert (Hfind : findProduct (products s) (JStr Grain.id) = Some Grain.listing).
  { rewrite Hp. vm_compute. reflexivity. }
  assert (Hrun : handle s (PostOrders (session 3) (JStr Grain.id) (JNum 1%float)) e
                 = (mkState (users s) (products s)
                      (orders s ++ [Order.mk (genId e) (JStr Grain.id)
                                      (User.id Grain.buyer) 1%float (now e)]),
                    json (NewOrderJson (Order.mk (genId e) (JStr Grain.id)
                                          (User.id Grain.buyer) 1%float (now e))))).
  { cbn [Binary64.handle]. unfold protected. rewrite Hauth.
    unfold Binary64.placeOrder.
    change (negb (strict_eq (User.type Grain.buyer) (JStr "buyer"))) with false.
    assert (Htr : truthy (JStr Grain.id) = true) by (vm_compute; reflexivity).
    rewrite Htr. change (positive_number (JNum 1%float)) with (Some 1%float).
    cbv iota. rewrite Hfind, Hsold. reflexivity. }
  rewrite Hrun. split; [reflexivity|]. cbn [fst]. repeat split; cbn; auto.
  exists (ones ++ [Order.mk (genId e) (JStr Grain.id) (User.id Grain.buyer) 1%float
                     (now e)])%list.
  rewrite Ho. split; [reflexivity|]. split.
  - apply Forall_app. split; [exact Hones|]. constructor; [|constructor]. now split.
  - rewrite length_app. simpl. lia.
Qed.

Lemma base_reached : Grain.reached (fst (run init Grain.base)) 0.
Proof.
  split; [vm_compute; reflexivity|]. split; [vm_compute; reflexivity|].
  exists []. split; [vm_compute; reflexivity|]. split; [constructor|reflexivity].
Qed.

(** However many orders of one unit follow the first order, each is
    answered 200 and the store stays one of the stores of the scenario. *)
Lemma units_reached (draws : list env) (s : state) (n : nat) :
  Grain.reached s n ->
  List.Forall (fun a => status a = 200%nat) (snd (run s (Grain.units draws)))
  /\ Grain.reached (fst (run s (Grain.units draws))) (n + length draws).
Proof.
  revert s n. induction draws as [|e draws IH]; intros s n Hs; cbn [Grain.units List.map].
  - split; [constructor|]. now rewrite Nat.add_0_r.
  - cbn [Binary64.run]. destruct (unit_accepted s n e Hs) as [Hok Hs1].
    destruct (handle s (PostOrders (session 3) (JStr Grain.id) (JNum 1%float)) e)
      as [s1 a]. cbn [fst snd] in *.
    destruct (IH s1 (S n) Hs1) as [Hall Hs2]. fold (Grain.units draws).
    destruct (run s1 (Grain.units draws)) as [s2 answers]. cbn [fst snd length] in *.
    split; [now constructor|]. now rewrite Nat.add_succ_r.
Qed.

(** The store after the first order and the orders of one unit. *)
Lemma scenario_reached (draws : list env) :
  List.Forall (fun a => status a = 200%nat)
    (snd (run init (Grain.base ++ Grain.units draws)))
  /\ Grain.reached (fst (run init (Grain.base ++ Grain.units draws))) (length draws).
Proof.
  rewrite run_app. cbn [fst snd].
  destruct (units_reached draws _ 0 base_reached) as [Hall Hs].
  split; [|exact Hs]. apply Forall_app. split; [|exact Hall].
  vm_compute. repeat constructor.
Qed.

(** What the two product routes answer in a store of the scenario. *)
Lemma shown_reached (s : state) (n : nat) :
  Grain.reached s n ->
  getProduct s Grain.id = json (ProductJson Grain.listing (JStr "P") 4%float)
  /\ getProducts s
     = json (ProductsJson [mkView Grain.id (genId (draw 1)) (JStr "P") (JStr "Grain")
                             (JStr "") 1%float 4%float]).
Proof.
  intros Hs. pose proof (soldQty_reached s n Hs) as Hsold.
  destruct Hs as (Hu & Hp & _). split.
  - unfold getProduct. rewrite Hp.
    change (findProduct [Grain.listing] (JStr Grain.id))
      with (if String.eqb Grain.id Grain.id then Some Grain.listing else None).
    rewrite String.eqb_refl. change (Product.id Grain.listing) with Grain.id.
    rewrite Hsold, Hu. vm_compute. reflexivity.
  - unfold getProducts. rewrite Hp. cbn [List.map].
    change (Product.id Grain.listing) with Grain.id.
    rewrite Hsold, Hu. vm_compute. reflexivity.
Qed.

Lemma remaining_reached (s : state) (n : nat) :
  Grain.reached s n -> remaining s Grain.listing == 4 - inject_Z (Z.of_nat n).
Proof.
  intros Hs. unfold remaining. change (Product.id Grain.listing) with Grain.id.
  pose proof (committed_reached s n Hs) as Hc.
  assert (Hq : exact (Product.quantity Grain.listing) == 9007199254740996)
    by (vm_compute; reflexivity).
  lra.
Qed.

(** C1. No oversell does not hold of the code, which sums the ledger in
    binary64: a farmer lists 2^53 + 4 units, a buyer orders 2^53 units and
    then one unit at a time, at least five times.  Every request of the run
    is answered 200, the store holds the one listing, and the quantities of
    the accepted orders against it sum to more than its total quantity: to
    the total quantity plus one, plus one for every order after the fifth. *)
Theorem oversell_in_binary64 (e1 e2 e3 e4 e5 : env) (draws : list env) :
  List.Forall (fun a => status a = 200%nat)
    (snd (run init (Grain.base ++ Grain.units (e1 :: e2 :: e3 :: e4 :: e5 :: draws))))
  /\ products (fst (run init (Grain.base
                               ++ Grain.units (e1 :: e2 :: e3 :: e4 :: e5 :: draws))))
     = [Grain.listing]
  /\ committed (orders (fst (run init (Grain.base
                               ++ Grain.units (e1 :: e2 :: e3 :: e4 :: e5 :: draws)))))
       (Product.id Grain.listing)
     == exact (Product.quantity Grain.listing) + 1 + inject_Z (Z.of_nat (length draws))
  /\ exact (Product.quantity Grain.listing)
     < committed (orders (fst (run init (Grain.base
                               ++ Grain.units (e1 :: e2 :: e3 :: e4 :: e5 :: draws)))))
         (Product.id Grain.listing).
Proof.
  destruct (scenario_reached (e1 :: e2 :: e3 :: e4 :: e5 :: draws)) as [Hall Hs].
  pose proof (committed_reached _ _ Hs) as Hc.
  change (Product.id Grain.listing) with Grain.id.
  set (s := fst (run init (Grain.base
                             ++ Grain.units (e1 :: e2 :: e3 :: e4 :: e5 :: draws)))) in *.
  assert (Hq : exact (Product.quantity Grain.listing) == 9007199254740996)
    by (vm_compute; reflexivity).
  assert (Hlen : inject_Z (Z.of_nat (length (e1 :: e2 :: e3 :: e4 :: e5 :: draws)))
                 == 5 + inject_Z (Z.of_nat (length draws))).
  { cbn [length]. rewrite !Nat2Z.inj_succ. unfold Z.succ. rewrite !inject_Z_plus.
    change (inject_Z 1) with 1. lra. }
  assert (Hpos : 0 <= inject_Z (Z.of_nat (length draws))).
  { change 0 with (inject_Z 0). rewrite <- Zle_Qle. lia. }
  split; [exact Hall|]. split; [apply Hs|]. split; lra.
Qed.

(** C2. The availability the code answers is not the total quantity
    minus the committed orders: with 2^53 + 4 units listed, an order of
    2^53 units and then at least one order of one unit, [GET /products/:id]
    answers [quantityAvailable] 4, whereas the remaining quantity is 3, less
    one for every further order. *)
Theorem availability_in_binary64 (e : env) (draws : list env) :
  getProduct (fst (run init (Grain.base ++ Grain.units (e :: draws)))) Grain.id
  = json (ProductJson Grain.listing (JStr "P") 4%float)
  /\ remaining (fst (run init (Grain.base ++ Grain.units (e :: draws)))) Grain.listing
     == 3 - inject_Z (Z.of_nat (length draws))
  /\ ~ exact 4
       == remaining (fst (run init (Grain.base ++ Grain.units (e :: draws))))
            Grain.listing.
Proof.
  destruct (scenario_reached (e :: draws)) as [_ Hs].
  pose proof (remaining_reached _ _ Hs) as Hr.
  destruct (shown_reached _ _ Hs) as [Hshown _].
  set (s := fst (run init (Grain.base ++ Grain.units (e :: draws)))) in *.
  assert (Hlen : inject_Z (Z.of_nat (length (e :: draws)))
                 == 1 + inject_Z (Z.of_nat (length draws))).
  { cbn [length]. rewrite Nat2Z.inj_succ. unfold Z.succ. rewrite inject_Z_plus.
    change (inject_Z 1) with 1. lra. }
  assert (Hpos : 0 <= inject_Z (Z.of_nat (length draws))).
  { change 0 with (inject_Z 0). rewrite <- Zle_Qle. lia. }
  assert (Hfour : exact 4 == 4) by (vm_compute; reflexivity).
  split; [exact Hshown|]. split; [lra|]. intros Heq. lra.
Qed.


(** ** Registration *)

Lemma same_string (v : jsval) (n : string) : strict_eq v (JStr n) = true <-> v = JStr n.
Proof.
  destruct v; simpl; split; try discriminate.
  - intros H. apply String.eqb_eq in H. now subst.
  - intros [= ->]. apply String.eqb_refl.
Qed.

(** On a number that is truthy, [===] is equality. *)
Lemma same_number (x y : float) :
  PrimFloat.eqb x 0%float = false -> PrimFloat.is_nan x = false ->
  PrimFloat.eqb x y = true <-> x = y.
Proof.
  intros Hzero Hnan. split.
  - rewrite FloatAxioms.eqb_spec in *. intros H. apply FloatAxioms.Prim2SF_inj.
    change (Prim2SF 0) with (S754_zero false) in Hzero.
    unfold SFeqb, SFcompare in *.
    destruct (Prim2SF x) as [s1|s1| |s1 m1 e1], (Prim2SF y) as [s2|s2| |s2 m2 e2];
      try discriminate; try (destruct s1, s2; discriminate).
    + destruct s1, s2; try discriminate; reflexivity.
    + destruct s1, s2; try discriminate;
        destruct (Z.compare e1 e2) eqn:He; try discriminate;
        apply Z.compare_eq in He; subst;
        destruct (Pos.compare_cont Eq m1 m2) eqn:Hm; try discriminate;
        apply Pos.compare_eq in Hm; subst; reflexivity.
  - intros <-. unfold PrimFloat.is_nan in Hnan. now apply negb_false_iff in Hnan.
Qed.

(** A stored name, which is truthy, is [===] to a value that is not an
    array or an object exactly when the two are the same value. *)
Lemma same_primitive (a b : jsval) :
  truthy a = true -> primitive b = true -> strict_eq a b = true <-> a = b.
Proof.
  intros Ha Hb. destruct a, b; simpl in *; try discriminate;
    try (split; intros; (discriminate || reflexivity)).
  - split; [intros H; apply Bool.eqb_prop in H; now subst|].
    intros [= ->]. apply Bool.eqb_reflx.
  - apply negb_true_iff, orb_false_iff in Ha as [Hzero Hnan].
    rewrite (same_number x x0 Hzero Hnan). split; [now intros ->|now intros [= ->]].
  - rewrite String.eqb_eq. split; [now intros ->|now intros [= ->]].
Qed.

Lemma valid_credentials (name type : jsval) :
  invalid_credentials name type = false <->
  truthy name = true /\ (type = JStr "farmer" \/ type = JStr "buyer").
Proof.
  unfold invalid_credentials. split.
  - intros H. apply orb_false_iff in H as [H Hty].
    apply orb_false_iff in H as [Hn _].
    apply negb_false_iff in Hn. split; [exact Hn|].
    apply andb_false_iff in Hty as [Hty|Hty]; apply negb_false_iff in Hty;
      apply same_string in Hty; auto.
  - intros [Hn [-> | ->]]; rewrite Hn; reflexivity.
Qed.

(** The user a login changes keeps its identifier, name and role and gets
    the new token; the others stay as they are. *)
Lemma set_token_of_first_users (f : User.t -> bool) (t : string) (l : list User.t)
    (u : User.t) :
  In u (set_token_of_first f t l) ->
  exists u0, In u0 l /\ User.id u = User.id u0 /\ User.name u = User.name u0
             /\ User.type u = User.type u0
             /\ (User.token u = User.token u0 \/ User.token u = t).
Proof.
  induction l as [|x l IH]; simpl; [contradiction|].
  destruct (f x).
  - intros [<-|Hin]; [exists x | exists u]; simpl; auto 6.
  - intros [<-|Hin]; [exists x; simpl; auto 6|].
    destruct (IH Hin) as (u0 & ? & ?). exists u0. auto.
Qed.

(** What one handler run does to the users: nothing, or a registration
    puts one user after the others, or a login replaces a token. *)
Lemma users_after (s s' : state) (r : request) (e : env) (a : response) :
  handle s r e = (s', a) ->
  users s' = users s
  \/ (exists name type,
         r = PostRegister name type
         /\ invalid_credentials name type = false
         /\ users s' = (users s ++ [User.mk (genId e) name type (genToken e)])%list)
  \/ (exists name type,
         r = PostLogin name type
         /\ users s' = set_token_of_first (same_name_type name type) (genToken e) (users s)).
Proof.
  intros H. destruct r; cbn [Binary64.handle] in H;
    unfold protected, register, login, addProduct, Binary64.placeOrder, listOrders in H;
    try (left; repeat case_match; simplify_eq; reflexivity).
  - destruct (invalid_credentials name type) eqn:Hv; [left; now simplify_eq|].
    destruct (List.find _ _) eqn:Hf; [left; now simplify_eq|].
    simplify_eq. right. left. exists name, type. auto.
  - destruct (invalid_credentials name type) eqn:Hv; [left; now simplify_eq|].
    destruct (List.find _ _) eqn:Hf; [|left; now simplify_eq].
    simplify_eq. right. right. exists name, type. auto.
Qed.

Lemma drawn_in_more (done : list (request * env)) (x : request * env) (s : state) :
  drawn_in done s -> drawn_in (done ++ [x]) s.
Proof.
  intros Hs u Hin. destruct (Hs u Hin) as (Hn & Ht & (r0 & e0 & H0 & Hid) & (r1 & e1 & H1 & Htok)).
  split; [exact Hn|]. split; [exact Ht|]. split.
  - exists r0, e0. split; [apply in_or_app; now left|exact Hid].
  - exists r1, e1. split; [apply in_or_app; now left|exact Htok].
Qed.

Lemma drawn_in_handle (done : list (request * env)) (s : state) (r : request) (e : env) :
  drawn_in done s -> drawn_in (done ++ [(r, e)]) (fst (handle s r e)).
Proof.
  intros Hs. destruct (handle s r e) as [s' a] eqn:H. cbn [fst].
  assert (Hlast : In (r, e) (done ++ [(r, e)])) by (apply in_or_app; right; now left).
  destruct (users_after _ _ _ _ _ H)
    as [Hu|[(name & type & _ & Hv & Hu)|(name & type & _ & Hu)]];
    intros u Hin; rewrite Hu in Hin.
  - now apply (drawn_in_more done (r, e) s Hs).
  - apply in_app_or in Hin as [Hin|[<-|[]]];
      [now apply (drawn_in_more done (r, e) s Hs)|].
    apply valid_credentials in Hv as [Hn Ht]. cbn.
    split; [exact Hn|]. split; [exact Ht|]. split; exists r, e; auto.
  - apply set_token_of_first_users in Hin
      as (u0 & Hin & Hid & Hname & Htype & Htok).
    destruct (drawn_in_more done (r, e) s Hs u0 Hin) as (Hn & Ht & Hi & Hk).
    rewrite Hid, Hname, Htype. split; [exact Hn|]. split; [exact Ht|].
    split; [exact Hi|]. destruct Htok as [-> | ->]; [exact Hk|]. exists r, e. auto.
Qed.

Lemma drawn_in_run (l done : list (request * env)) (s : state) :
  drawn_in done s -> drawn_in (done ++ l) (fst (run s l)).
Proof.
  revert done s. induction l as [|[r e] l IH]; intros done s Hs.
  - now rewrite app_nil_r.
  - cbn [Binary64.run]. pose proof (drawn_in_handle done s r e Hs) as Hs1.
    destruct (handle s r e) as [s1 a]. cbn [fst] in Hs1.
    specialize (IH _ s1 Hs1). destruct (run s1 l) as [s2 answers]. cbn [fst] in *.
    now rewrite <- app_assoc in IH.
Qed.

Lemma drawn_in_reachable (l : list (request * env)) : drawn_in l (fst (run init l)).
Proof. apply (drawn_in_run l [] init). intros u []. Qed.

(** Two draws give the same identifier, or the same token, only when the
    random bytes are the same. *)
Lemma genId_inj (e1 e2 : env) :
  genId e1 = genId e2 -> (random8 e1 mod 2 ^ 64 = random8 e2 mod 2 ^ 64)%N.
Proof.
  with_strategy transparent [genId] unfold genId. apply (to_hex_inj 16).
Qed.

Lemma genToken_inj (e1 e2 : env) :
  genToken e1 = genToken e2 -> (random16 e1 mod 2 ^ 128 = random16 e2 mod 2 ^ 128)%N.
Proof.
  with_strategy transparent [genToken] unfold genToken. apply (to_hex_inj 32).
Qed.

(** C4, for a display name that is not an array or an object (a string,
    a number or a boolean).  In any store reached from the empty store,
    [POST /register] answers 400 "User already exists with this name and
    type", leaving the store as it is, exactly when a registered actor has
    that name and that role.  When none has, whatever is registered under
    the other role, a registration with a truthy name and one of the two
    roles answers 200 and puts one actor after the others, with the
    identifier and the token the run draws.  That identifier is the
    identifier of no actor of the store when the 8 random bytes differ from
    those of every earlier run, and that token the token of no actor when
    the 16 random bytes do. *)
Theorem duplicate_registration_of_a_name (l : list (request * env)) (e : env)
    (name type : jsval) :
  primitive name = true ->
  let s := fst (run init l) in
  let registered :=
    exists u, In u (users s) /\ User.name u = name /\ User.type u = type in
  (handle s (PostRegister name type) e
   = (s, fail 400 "User already exists with this name and type") <-> registered)
  /\ (snd (handle s (PostRegister name type) e)
      = fail 400 "User already exists with this name and type" <-> registered)
  /\ (~ registered -> truthy name = true ->
      type = JStr "farmer" \/ type = JStr "buyer" ->
      handle s (PostRegister name type) e
      = (mkState (users s ++ [User.mk (genId e) name type (genToken e)])
                 (products s) (orders s),
         json (UserJson (genId e) name type (genToken e))))
  /\ ((forall r0 e0, In (r0, e0) l ->
         (random8 e0 mod 2 ^ 64 <> random8 e mod 2 ^ 64)%N) ->
      forall u, In u (users s) -> User.id u <> genId e)
  /\ ((forall r0 e0, In (r0, e0) l ->
         (random16 e0 mod 2 ^ 128 <> random16 e mod 2 ^ 128)%N) ->
      forall u, In u (users s) -> User.token u <> genToken e).
Proof.
  intros Hprim s registered.
  pose proof (drawn_in_reachable l) as Hwell. fold s in Hwell.
  assert (Hsame : forall u, In u (users s) ->
                  same_name_type name type u = true
                  <-> User.name u = name /\ User.type u = type).
  { intros u Hin. destruct (Hwell u Hin) as (Htr & Hrole & _).
    unfold same_name_type. rewrite andb_true_iff, (same_primitive _ name Htr Hprim).
    assert (Hty : strict_eq (User.type u) type = true <-> User.type u = type).
    { destruct Hrole as [-> | ->]; (split; [|now intros <-]);
        destruct type; cbn [strict_eq]; try discriminate; intros H;
        apply String.eqb_eq in H; now subst. }
    now rewrite Hty. }
  assert (Hdup : registered ->
                 handle s (PostRegister name type) e
                 = (s, fail 400 "User already exists with this name and type")).
  { intros (u & Hin & Hn & Ht). cbn [Binary64.handle]. unfold register.
    destruct (Hwell u Hin) as (Htr & Hrole & _).
    assert (Hv : invalid_credentials name type = false).
    { apply valid_credentials. split; [now rewrite <- Hn|]. now rewrite <- Ht. }
    rewrite Hv.
    destruct (List.find (same_name_type name type) (users s)) eqn:Hf; [reflexivity|].
    exfalso. pose proof (find_none _ _ Hf u Hin) as Hno.
    assert (Hyes : same_name_type name type u = true) by now apply Hsame.
    rewrite Hyes in Hno. discriminate. }
  assert (Hconv : snd (handle s (PostRegister name type) e)
                  = fail 400 "User already exists with this name and type" ->
                  registered).
  { cbn [Binary64.handle]. unfold register.
    destruct (invalid_credentials name type) eqn:Hv; [discriminate|].
    destruct (List.find (same_name_type name type) (users s)) as [u|] eqn:Hf;
      [|discriminate].
    intros _. apply find_some in Hf as [Hin Hf]. exists u.
    split; [exact Hin|]. now apply Hsame. }
  split; [split; [intros H; apply Hconv; now rewrite H|exact Hdup]|].
  split; [split; [exact Hconv|intros H; now rewrite (Hdup H)]|].
  split; [|split].
  - intros Hnone Hname Hrole. cbn [Binary64.handle]. unfold register.
    assert (Hv : invalid_credentials name type = false)
      by (apply valid_credentials; auto).
    rewrite Hv.
    destruct (List.find (same_name_type name type) (users s)) as [u|] eqn:Hf;
      [|reflexivity].
    exfalso. apply Hnone. apply find_some in Hf as [Hin Hf]. exists u.
    split; [exact Hin|]. now apply Hsame.
  - intros Hnew u Hin Heq.
    destruct (Hwell u Hin) as (_ & _ & (r0 & e0 & H0 & Hid) & _).
    apply (Hnew r0 e0 H0). apply genId_inj. congruence.
  - intros Hnew u Hin Heq.
    destruct (Hwell u Hin) as (_ & _ & _ & (r0 & e0 & H0 & Htok)).
    apply (Hnew r0 e0 H0). apply genToken_inj. congruence.
Qed.

(** ** Orders *)



(** ** The catalog *)

Lemma one_listing_per_id (ps : list Product.t) (p p' : Product.t) :
  List.NoDup (List.map Product.id ps) -> In p ps -> In p' ps ->
  Product.id p = Product.id p' -> p = p'.
Proof.
  induction ps as [|x ps IH]; cbn [List.map In]; intros Hnd Hp Hp' Hid; [contradiction|].
  inversion Hnd as [|? ? Hx Hnd']; subst.
  destruct Hp as [->|Hp], Hp' as [->|Hp']; auto.
  - exfalso. apply Hx. rewrite Hid. now apply in_map.
  - exfalso. apply Hx. rewrite <- Hid. now apply in_map.
Qed.

Lemma listing_found (ps : list Product.t) (p : Product.t) :
  List.NoDup (List.map Product.id ps) -> In p ps ->
  findProduct ps (JStr (Product.id p)) = Some p.
Proof.
  intros Hnd Hin. unfold findProduct.
  destruct (List.find _ ps) as [p'|] eqn:Hf.
  - apply find_some in Hf as [Hin' Hid]. cbn [strict_eq] in Hid.
    apply String.eqb_eq in Hid. f_equal. now apply (one_listing_per_id ps).
  - apply (find_none _ _ Hf) in Hin. cbn [strict_eq] in Hin.
    now rewrite String.eqb_refl in Hin.
Qed.

(** X22. Hidden, not gone.  In a store where listings have distinct
    identifiers, a listing whose computed availability (the binary64
    difference of its quantity and the binary64 ledger sum) is not above
    zero has no element in the answer of [GET /products], while
    [GET /products/:id] still answers 200 with the listing and that
    availability; a listing whose computed availability is above zero has
    its element in the answer of [GET /products], with that availability. *)
Theorem sold_out_listing (s : state) (p : Product.t) :
  List.NoDup (List.map Product.id (products s)) ->
  In p (products s) ->
  let available :=
    PrimFloat.sub (Product.quantity p) (soldQty (orders s) (JStr (Product.id p))) in
  let view := mkView (Product.id p) (Product.farmerId p)
                (nameOf (users s) (Product.farmerId p)) (Product.name p)
                (Product.desc p) (Product.price p) available in
  getProduct s (Product.id p)
  = json (ProductJson p (nameOf (users s) (Product.farmerId p)) available)
  /\ (PrimFloat.ltb 0%float available = false ->
      forall views v, getProducts s = json (ProductsJson views) ->
                      In v views -> v_id v <> Product.id p)
  /\ (PrimFloat.ltb 0%float available = true ->
      forall views, getProducts s = json (ProductsJson views) -> In view views).
Proof.
  intros Hnd Hin available view. split; [|split].
  - unfold getProduct. now rewrite (listing_found _ _ Hnd Hin).
  - intros Hhidden views v [= <-] Hv Hid.
    apply filter_In in Hv as [Hv Hshown].
    apply in_map_iff in Hv as (p' & <- & Hp'). cbn [v_id v_quantityAvailable] in *.
    assert (p' = p) by (now apply (one_listing_per_id (products s))). subst p'.
    fold available in Hshown. congruence.
  - intros Hshown views [= <-]. apply filter_In. split; [|exact Hshown].
    apply in_map_iff. exists p. now split.
Qed.

(** ** Market trends *)

Local Abbreviation ToPropertyKey := (Binary64.ToPropertyKey NumberToString).
Local Abbreviation addPrice := (Binary64.addPrice NumberToString).
Local Abbreviation addSales := (Binary64.addSales NumberToString).
Local Abbreviation marketTrends := (Binary64.marketTrends NumberToString).

Lemma addPrice_entries (m : gmap string trend) (p : Product.t) (k : string) :
  ToPropertyKey (Product.name p) = Some k ->
  exists m', addPrice m p = Some m'
             /\ forall key, is_Some (m' !! key)
                            <-> is_Some (m !! key) \/ (inherited key = false /\ k = key).
Proof.
  intros Hk. unfold Binary64.addPrice. rewrite Hk. eexists. split; [reflexivity|].
  intros key. destruct (m !! k) as [t|] eqn:Hm.
  - destruct (decide (k = key)) as [<-|Hne].
    + rewrite lookup_insert_eq, Hm. split; [intros _; left|intros _]; eauto.
    + rewrite lookup_insert_ne by exact Hne. split; [now left|]. intros [H|[_ H]]; tauto.
  - destruct (inherited k) eqn:Hi.
    + split; [now left|]. intros [H|[Hi' <-]]; [exact H|congruence].
    + destruct (decide (k = key)) as [<-|Hne].
      * rewrite lookup_insert_eq. split; [intros _; right|intros _]; eauto.
      * rewrite lookup_insert_ne by exact Hne. split; [now left|].
        intros [H|[_ H]]; tauto.
Qed.

Lemma forEach_addPrice_entries (ps : list Product.t) (m : gmap string trend) :
  (forall p, In p ps -> ToPropertyKey (Product.name p) <> None) ->
  exists m', forEach addPrice ps m = Some m'
             /\ forall key, is_Some (m' !! key)
                            <-> is_Some (m !! key)
                                \/ (inherited key = false
                                    /\ exists p, In p ps
                                                 /\ ToPropertyKey (Product.name p)
                                                    = Some key).
Proof.
  revert m. induction ps as [|p ps IH]; intros m Hkeys; cbn [forEach].
  - exists m. split; [reflexivity|]. intros key. split; [now left|].
    intros [H|(_ & p & [] & _)]. exact H.
  - destruct (ToPropertyKey (Product.name p)) as [k|] eqn:Hk;
      [|exfalso; apply (Hkeys p); [now left|exact Hk]].
    destruct (addPrice_entries m p k Hk) as (m1 & -> & H1).
    destruct (IH m1) as (m2 & -> & H2); [intros q Hq; apply Hkeys; now right|].
    exists m2. split; [reflexivity|]. intros key. rewrite H2, H1. split.
    + intros [[H|[Hi <-]]|(Hi & q & Hq & Hkq)]; [now left| |].
      * right. split; [exact Hi|]. exists p. split; [now left|exact Hk].
      * right. split; [exact Hi|]. exists q. split; [now right|exact Hkq].
    + intros [H|(Hi & q & [<-|Hq] & Hkq)]; [now left; left| |].
      * left. right. split; [exact Hi|]. congruence.
      * right. split; [exact Hi|]. exists q. now split.
Qed.

Lemma forEach_addPrice_throws (ps : list Product.t) (m : gmap string trend)
    (p : Product.t) :
  In p ps -> ToPropertyKey (Product.name p) = None -> forEach addPrice ps m = None.
Proof.
  revert m. induction ps as [|x ps IH]; intros m Hin Hk; [contradiction|].
  cbn [forEach]. destruct Hin as [->|Hin].
  - unfold Binary64.addPrice. now rewrite Hk.
  - destruct (addPrice m x) as [m1|]; [now apply IH|reflexivity].
Qed.

Lemma forEach_addSales_entries (ps : list Product.t) (os : list Order.t)
    (m : gmap string trend) :
  (forall p, In p ps -> ToPropertyKey (Product.name p) <> None) ->
  exists m', forEach (addSales ps) os m = Some m'
             /\ forall key, is_Some (m' !! key) <-> is_Some (m !! key).
Proof.
  intros Hkeys. revert m. induction os as [|o os IH]; intros m; cbn [forEach].
  - exists m. split; [reflexivity|]. tauto.
  - assert (H1 : exists m1, addSales ps m o = Some m1
                            /\ forall key, is_Some (m1 !! key) <-> is_Some (m !! key)).
    { unfold Binary64.addSales.
      destruct (findProduct ps (Order.productId o)) as [product|] eqn:Hf;
        [|exists m; split; [reflexivity|tauto]].
      apply find_some in Hf as [Hin _].
      destruct (ToPropertyKey (Product.name product)) as [k|] eqn:Hk;
        [|exfalso; now apply (Hkeys product)].
      eexists. split; [reflexivity|]. intros key.
      destruct (m !! k) as [t|] eqn:Hm; [|tauto].
      destruct (decide (k = key)) as [<-|Hne].
      - rewrite lookup_insert_eq, Hm. split; eauto.
      - rewrite lookup_insert_ne by exact Hne. tauto. }
    destruct H1 as (m1 & -> & H1). destruct (IH m1) as (m2 & -> & H2).
    exists m2. split; [reflexivity|]. intros key. now rewrite H2, H1.
Qed.

(** X21. Which names have an entry.  When the name of every listing
    converts to a property key, [GET /market-trends] answers 200 with an
    object that has an entry for a name exactly when a listing has that
    name and the name is no property name of [Object.prototype].  When the
    name of some listing converts to no key (an object whose [toString] is
    not a function), the handler throws and the route answers 500. *)
Theorem trend_entries (s : state) (e : env) :
  ((forall p, In p (products s) -> ToPropertyKey (Product.name p) <> None) ->
   exists trendData,
     handle s GetMarketTrends e = (s, json (TrendsJson trendData))
     /\ forall key, is_Some (trendData !! key)
                    <-> inherited key = false
                        /\ exists p, In p (products s)
                                     /\ ToPropertyKey (Product.name p) = Some key)
  /\ (forall p, In p (products s) -> ToPropertyKey (Product.name p) = None ->
      handle s GetMarketTrends e = (s, mkResponse 500 Uncaught)).
Proof.
  split.
  - intros Hkeys. cbn [Binary64.handle]. unfold Binary64.marketTrends.
    destruct (forEach_addPrice_entries (products s) ∅ Hkeys) as (m1 & -> & H1).
    destruct (forEach_addSales_entries (products s) (orders s) (setAverage <$> m1) Hkeys)
      as (m2 & -> & H2).
    exists m2. split; [reflexivity|]. intros key.
    rewrite H2, lookup_fmap, fmap_is_Some, H1, lookup_empty. split.
    + intros [H|H]; [destruct H; discriminate|exact H].
    + intros H. now right.
  - intros p Hin Hk. cbn [Binary64.handle]. unfold Binary64.marketTrends.
    now rewrite (forEach_addPrice_throws _ _ p Hin Hk).
Qed.

End Binary64Properties.

(** * The scenarios in binary64, evaluated *)

(** C1 at five orders of one unit: the nine requests are answered 200,
    and the ledger holds 2^53 + 5 units against the 2^53 + 4 listed. *)
Lemma oversell_in_binary64_witness :
  let l := (Grain.base ++ Grain.units [draw 5; draw 6; draw 7; draw 8; draw 9])%list in
  let s := fst (Binary64.run Binary64.showNumber Binary64.init l) in
  List.map Binary64.status (snd (Binary64.run Binary64.showNumber Binary64.init l))
  = [200; 200; 200; 200; 200; 200; 200; 200; 200]%nat
  /\ Binary64.exact (Binary64.Product.quantity Grain.listing) == 9007199254740996
  /\ Binary64.committed (Binary64.orders s) Grain.id == 9007199254740997
  /\ Binary64.exact (Binary64.Product.quantity Grain.listing)
     < Binary64.committed (Binary64.orders s) (Binary64.Product.id Grain.listing).
Proof.
  intros l s. split; [vm_compute; reflexivity|].
  split; [vm_compute; reflexivity|]. split; [vm_compute; reflexivity|].
  apply (oversell_in_binary64 Binary64.showNumber (draw 5) (draw 6) (draw 7) (draw 8)
           (draw 9) []).
Defined.

(** C2 at one order of one unit: 3 units remain and 4 are shown. *)
Lemma availability_in_binary64_witness :
  let s := fst (Binary64.run Binary64.showNumber Binary64.init
                  (Grain.base ++ Grain.units [draw 5])) in
  Binary64.remaining s Grain.listing == 3
  /\ Binary64.getProduct s Grain.id
     = Binary64.json (Binary64.ProductJson Grain.listing (Binary64.JStr "P") 4%float).
Proof.
  intros s. split; [vm_compute; reflexivity|].
  apply (availability_in_binary64 Binary64.showNumber (draw 5) []).
Defined.


(** The specification's example with 10 units, evaluated in binary64:
    availability 10, then 6 after the order of 4; the order of 7 answers
    400 and leaves availability at 6. *)
Lemma ten_four_seven_answers :
  let leek := Binary64.Product.mk (genId (draw 2)) (genId (draw 1)) (Binary64.JStr "Leek")
                (Binary64.JStr "") 1%float 10%float in
  List.skipn 3 (snd (Binary64.run Binary64.showNumber Binary64.init ten_four_seven))
  = [ Binary64.json (Binary64.ProductJson leek (Binary64.JStr "P") 10%float);
      Binary64.json (Binary64.NewOrderJson
                       (Binary64.Order.mk (genId (draw 5)) (Binary64.JStr (genId (draw 2)))
                          (genId (draw 3)) 4%float (now (draw 5))));
      Binary64.json (Binary64.ProductJson leek (Binary64.JStr "P") 6%float);
      Binary64.fail 400 "Quantity requested (7) exceeds available quantity (6)";
      Binary64.json (Binary64.ProductJson leek (Binary64.JStr "P") 6%float) ]
  /\ length (Binary64.orders
               (fst (Binary64.run Binary64.showNumber Binary64.init ten_four_seven)))
     = 1%nat.
Proof. vm_compute. split; reflexivity. Qed.

(** The trends example of the specification, evaluated in binary64: the
    entry of Tomato has the average price 3 and the total quantity 8. *)
Lemma tomato_trends :
  exists trendData,
    List.last (snd (Binary64.run Binary64.showNumber Binary64.init tomato_example))
      (Binary64.mkResponse 0 Binary64.Uncaught)
    = Binary64.json (Binary64.TrendsJson trendData)
    /\ trendData !! "Tomato"
       = Some (Binary64.mkTrend 6%float 2%float 8%float (Some 3%float)).
Proof. eexists. split; vm_compute; reflexivity. Qed.

(** [GET /market-trends] throws on a listing the catalog accepted: the
    name [{"toString": 1}] converts to no property key, and the route
    answers 500. *)
Lemma keyless_name_answers :
  List.map Binary64.status
    (snd (Binary64.run Binary64.showNumber Binary64.init keyless_name))
  = [200; 200; 500]%nat.
Proof. vm_compute. reflexivity. Qed.

(** C4 does not hold of a display name that is an array: a farmer
    registers under the name [["Alice"]]; an actor with that name and that
    role is then registered, and a second registration with the same body
    answers 200 and adds a second such actor. *)
Lemma array_name_registers_twice :
  let name := Binary64.JObj (Some "Alice") in
  let s := fst (Binary64.run Binary64.showNumber Binary64.init
                  [(Binary64.PostRegister name (Binary64.JStr "farmer"), draw 1)]) in
  Binary64.users s
  = [Binary64.User.mk (genId (draw 1)) name (Binary64.JStr "farmer") (genToken (draw 1))]
  /\ Binary64.handle Binary64.showNumber s
       (Binary64.PostRegister name (Binary64.JStr "farmer")) (draw 2)
     = (Binary64.mkState
          [Binary64.User.mk (genId (draw 1)) name (Binary64.JStr "farmer")
             (genToken (draw 1));
           Binary64.User.mk (genId (draw 2)) name (Binary64.JStr "farmer")
             (genToken (draw 2))] [] [],
        Binary64.json (Binary64.UserJson (genId (draw 2)) name (Binary64.JStr "farmer")
                         (genToken (draw 2)))).
Proof. split; reflexivity. Qed.

(** C4 at Alice: registered as a farmer, she is refused as a farmer and
    accepted as a buyer, with an identifier and a token that the farmer
    does not have. *)
Lemma duplicate_registration_of_a_name_witness :
  let l := [(Binary64.PostRegister (Binary64.JStr "Alice") (Binary64.JStr "farmer"),
             draw 1)] in
  let s := fst (Binary64.run Binary64.showNumber Binary64.init l) in
  let farmer := Binary64.User.mk (genId (draw 1)) (Binary64.JStr "Alice")
                  (Binary64.JStr "farmer") (genToken (draw 1)) in
  Binary64.handle Binary64.showNumber s
    (Binary64.PostRegister (Binary64.JStr "Alice") (Binary64.JStr "farmer")) (draw 2)
  = (s, Binary64.fail 400 "User already exists with this name and type")
  /\ Binary64.handle Binary64.showNumber s
       (Binary64.PostRegister (Binary64.JStr "Alice") (Binary64.JStr "buyer")) (draw 2)
     = (Binary64.mkState
          (Binary64.users s
           ++ [Binary64.User.mk (genId (draw 2)) (Binary64.JStr "Alice")
                 (Binary64.JStr "buyer") (genToken (draw 2))])
          (Binary64.products s) (Binary64.orders s),
        Binary64.json (Binary64.UserJson (genId (draw 2)) (Binary64.JStr "Alice")
                         (Binary64.JStr "buyer") (genToken (draw 2))))
  /\ Binary64.User.id farmer <> genId (draw 2)
  /\ Binary64.User.token farmer <> genToken (draw 2).
Proof.
  intros l s farmer.
  assert (Hin : In farmer (Binary64.users s)) by now left.
  split; [|split; [|split]].
  - apply (duplicate_registration_of_a_name Binary64.showNumber l (draw 2)
             (Binary64.JStr "Alice") (Binary64.JStr "farmer") eq_refl).
    exists farmer. repeat split. exact Hin.
  - apply (duplicate_registration_of_a_name Binary64.showNumber l (draw 2)
             (Binary64.JStr "Alice") (Binary64.JStr "buyer") eq_refl);
      [|reflexivity|now right].
    intros (u & [<-|[]] & _ & Ht). discriminate.
  - apply (duplicate_registration_of_a_name Binary64.showNumber l (draw 2)
             (Binary64.JStr "Alice") (Binary64.JStr "buyer") eq_refl); [|exact Hin].
    intros r0 e0 [[= <- <-]|[]]. vm_compute. discriminate.
  - apply (duplicate_registration_of_a_name Binary64.showNumber l (draw 2)
             (Binary64.JStr "Alice") (Binary64.JStr "buyer") eq_refl); [|exact Hin].
    intros r0 e0 [[= <- <-]|[]]. vm_compute. discriminate.
Defined.


(** X22 at the specification's example with 10 units, once 4 and then 6
    are ordered: the leeks are hidden from the catalog and still answered
    by identifier, with availability 0. *)
Lemma sold_out_witness :
  let s := fst (Binary64.run Binary64.showNumber Binary64.init
                  (ten_four_seven
                   ++ [(Binary64.PostOrders (session 3) (Binary64.JStr (genId (draw 2)))
                          (Binary64.JNum 6%float), draw 9)])) in
  let leek := Binary64.Product.mk (genId (draw 2)) (genId (draw 1)) (Binary64.JStr "Leek")
                (Binary64.JStr "") 1%float 10%float in
  Binary64.getProducts s = Binary64.json (Binary64.ProductsJson [])
  /\ Binary64.getProduct s (genId (draw 2))
     = Binary64.json (Binary64.ProductJson leek (Binary64.JStr "P") 0%float).
Proof.
  intros s leek. split; [vm_compute; reflexivity|].
  assert (Hnd : List.NoDup (List.map Binary64.Product.id (Binary64.products s))).
  { vm_compute. constructor; [intros []|constructor]. }
  assert (Hin : In leek (Binary64.products s)) by (vm_compute; left; reflexivity).
  destruct (sold_out_listing s leek Hnd Hin) as (Hshown & _).
  change (Binary64.Product.id leek) with (genId (draw 2)) in Hshown.
  rewrite Hshown. vm_compute. reflexivity.
Defined.
